(** * The TCP connection shim of go-tun2socks ([core/tcp_conn.go])

    A shallow embedding of [tcpConn] and its methods, and the properties of
    the connection lifecycle, the receive path and the blocking write path.

    Conventions of the embedding:
    - Go [int] and the C integers are [Z]; a conversion to [u16_t] is
      written out as a reduction modulo [2^16];
    - a [[]byte] is a [list Byte.byte]; slicing [d[0:n]] is [firstn] and
      [d[n:len(d)]] is [skipn];
    - a Go [error] is [option string]: [None] is [nil], [Some m] an error
      whose [Error()] text is [m];
    - every call that leaves the Go code (into lwIP, into the handler, on a
      lock or on the condition variable) is recorded, in program order, in a
      log of [event]s;
    - the registry [tcpConns] (a [sync.Map]) is a [gmap] from keys to
      connections;
    - a [*tcpConn] receiver is passed by value, and a method that writes a
      flag hands the updated record back; no method reads a connection out
      of the registry, [Release] only tests for the key. *)

From Stdlib Require Import ZArith Lia List String Ascii.
From Stdlib Require Import DecimalString DecimalZ DecimalPos.
From stdpp Require Import base option gmap strings list.

Local Open Scope string_scope.
Local Open Scope Z_scope.

(** ** Values that cross the cgo boundary *)

(** [[]byte] *)
Abbreviation bytes := (list Byte.byte).

(** Go's [len], as an [int]. *)
Definition len {A} (l : list A) : Z := Z.of_nat (length l).

(** [C.u16_t(n)] and [uint16(n)]: the low sixteen bits. *)
Definition u16_t (n : Z) : Z := n mod 65536.

(** [%v] of a Go [int]: its decimal numeral, with a leading [-] below zero. *)
Definition fmt_int (n : Z) : string := NilZero.string_of_int (Z.to_int n).

(** Reading a decimal numeral back. *)
Definition parse_int (s : string) : option Z :=
  option_map Z.of_int (NilZero.int_of_string s).

(** [net.Addr], kept in the printed form the error messages use ([%v]). *)
Abbreviation Addr := string.

(** The fields of [struct tcp_pcb] that the Go code reads.  [pcb_ref] stands
    for the address of the structure, the other fields for its contents at
    the time of the read. *)
Record tcp_pcb := {
  pcb_ref : N;
  snd_buf : Z;
  local_ip : Z;
  local_port : Z;
  remote_ip : Z;
  remote_port : Z
}.

(** What the lwIP headers and the helper files of the package provide:
    the two [err_t] codes that [tcpWrite] tells apart, the poll interval, and
    the two address helpers.  Their values are not fixed here. *)
Class Engine := {
  ERR_OK : Z;
  ERR_MEM : Z;
  TCP_POLL_INTERVAL : Z;
  IPAddrNTOA : Z -> string;
  ParseTCPAddr : string -> Z -> Addr
}.

(** An instance to run the definitions on: the codes of lwIP 2.x
    ([ERR_OK = 0], [ERR_MEM = -1]) and stand-ins for the rest. *)
Definition lwip2 : Engine := {|
  ERR_OK := 0;
  ERR_MEM := -1;
  TCP_POLL_INTERVAL := 2;
  IPAddrNTOA := fun ip => fmt_int ip;
  ParseTCPAddr := fun ip port => ip ++ ":" ++ fmt_int port
|}.

(** Modelled from the spec: the two signals [CheckState] hands back to the
    engine through [NewLWIPError], "ok, keep going" and "aborted"; the
    declarations of [LWIP_ERR_OK], [LWIP_ERR_ABRT] and [NewLWIPError] are
    in another file of the package. *)
Inductive lwipError := LWIP_ERR_OK | LWIP_ERR_ABRT.

(** ** The log *)

(** Calls into lwIP.  A call carries the pcb as the engine sees it then. *)
Inductive lwip_call :=
| tcp_arg (pcb : tcp_pcb) (arg : option N)
| SetTCPRecvCallback (pcb : tcp_pcb)
| SetTCPSentCallback (pcb : tcp_pcb)
| SetTCPErrCallback (pcb : tcp_pcb)
| SetTCPPollCallback (pcb : tcp_pcb) (interval : Z)
| tcp_recv_nil (pcb : tcp_pcb)
| tcp_sent_nil (pcb : tcp_pcb)
| tcp_err_nil (pcb : tcp_pcb)
| tcp_poll_nil (pcb : tcp_pcb)
| tcp_recved (pcb : tcp_pcb) (n : Z)
| tcp_write (pcb : tcp_pcb) (data : bytes) (n : Z)
| tcp_output (pcb : tcp_pcb)
| tcp_close (pcb : tcp_pcb)
| tcp_abort (pcb : tcp_pcb).

(** Notifications to the [ConnectionHandler] of the connection with key [k]. *)
Inductive handler_call :=
| HConnect (target : Addr)
| HDidReceive (data : bytes)
| HDidSend (n : Z)
| HLocalDidClose
| HDidClose.

Inductive event :=
| Lwip (c : lwip_call)
| Handler (k : Z) (h : handler_call)
| lwipMutex_Lock
| lwipMutex_Unlock
| canWrite_L_Lock (k : Z)
| canWrite_L_Unlock (k : Z)
| canWrite_Wait (k : Z)
| canWrite_Broadcast (k : Z)
| cancel (k : Z).

(** ** The connection *)

(** [ConnectionHandler]: the two notifications whose result the connection
    looks at.  A handler may keep state of its own, so its answer may depend
    on everything logged before the call. *)
Record ConnectionHandler := {
  Connect : list event -> Addr -> option string;
  DidReceive : list event -> bytes -> option string
}.

Record tcpConn := {
  pcb : tcp_pcb;
  handler : ConnectionHandler;
  network : string;
  remoteAddr : Addr;
  localAddr : Addr;
  connKeyArg : N;
  connKey : Z;
  closing : bool;
  localClosed : bool;
  aborting : bool
}.

Definition RemoteAddr (conn : tcpConn) : Addr := remoteAddr conn.
Definition LocalAddr (conn : tcpConn) : Addr := localAddr conn.

Definition isClosing (conn : tcpConn) : bool := closing conn.
Definition isAborting (conn : tcpConn) : bool := aborting conn.
Definition isLocalClosed (conn : tcpConn) : bool := localClosed conn.

(** [conn.closing = true] and its two siblings; the receiver is a pointer in
    Go, here the updated record is handed back. *)
Definition set_closing (conn : tcpConn) : tcpConn :=
  {| pcb := pcb conn; handler := handler conn; network := network conn;
     remoteAddr := remoteAddr conn; localAddr := localAddr conn;
     connKeyArg := connKeyArg conn; connKey := connKey conn;
     closing := true; localClosed := localClosed conn;
     aborting := aborting conn |}.

Definition set_localClosed (conn : tcpConn) : tcpConn :=
  {| pcb := pcb conn; handler := handler conn; network := network conn;
     remoteAddr := remoteAddr conn; localAddr := localAddr conn;
     connKeyArg := connKeyArg conn; connKey := connKey conn;
     closing := closing conn; localClosed := true;
     aborting := aborting conn |}.

Definition set_aborting (conn : tcpConn) : tcpConn :=
  {| pcb := pcb conn; handler := handler conn; network := network conn;
     remoteAddr := remoteAddr conn; localAddr := localAddr conn;
     connKeyArg := connKeyArg conn; connKey := connKey conn;
     closing := closing conn; localClosed := localClosed conn;
     aborting := true |}.

(** The texts of the errors. *)
Definition msg_closed_by_remote (conn : tcpConn) : string :=
  "connection " ++ LocalAddr conn ++ "->" ++ RemoteAddr conn
    ++ " was closed by remote".
Definition msg_aborting (conn : tcpConn) : string :=
  "connection " ++ LocalAddr conn ++ "->" ++ RemoteAddr conn
    ++ " is aborting".
Definition msg_closed_by_local (conn : tcpConn) : string :=
  "connection " ++ LocalAddr conn ++ "->" ++ RemoteAddr conn
    ++ " was closed by local".
Definition msg_write_proxy (e : string) : string :=
  "write proxy failed: " ++ e.
Definition tcp_write_prefix : string :=
  "lwip tcp_write failed with error code: ".
Definition msg_tcp_write (code : Z) : string :=
  tcp_write_prefix ++ fmt_int code.
Definition msg_tcp_close (code : Z) : string :=
  "close TCP connection failed, lwip error code " ++ fmt_int code.
Definition msg_no_handler : string :=
  "no registered TCP connection handlers found".

(** Reading the code back from a [tcp_write] failure text: drop the fixed
    words, read the numeral. *)
Fixpoint strip_prefix (p s : string) : option string :=
  match p with
  | EmptyString => Some s
  | String a p' =>
      match s with
      | EmptyString => None
      | String b s' => if Ascii.eqb a b then strip_prefix p' s' else None
      end
  end.

Definition code_of_tcp_write_msg (m : string) : option Z :=
  match strip_prefix tcp_write_prefix m with
  | Some numeral => parse_int numeral
  | None => None
  end.

(** ** The write path *)

(** A Go call either returns or panics ([tcpWrite] takes [&data[0]]); a call
    that blocks on the condition variable may also still be waiting when the
    observed schedule ends. *)
Inductive outcome (A : Type) :=
| Returned (a : A)
| Panicked
| Waiting.
Arguments Returned {A} a.
Arguments Panicked {A}.
Arguments Waiting {A}.

(** A run: what happened to the call, and the log it left. *)
Definition run (A : Type) : Type := outcome A * list event.

(** Log [evs], then go on as [r]. *)
Definition after {A} (evs : list event) (r : run A) : run A :=
  (fst r, evs ++ snd r)%list.

Section WritePath.
Context {E : Engine}.

(** [tcpWrite].  [ret] is what [C.tcp_write] answers if it is called.  An
    empty [data] has no first byte: the index expression panics before the
    engine is reached. *)
Definition tcpWrite (conn : tcpConn) (data : bytes) (ret : Z)
  : run (Z * option string) :=
  match data with
  | []%list => (Panicked, []%list)
  | (_ :: _)%list =>
      let err := ret in
      if err =? ERR_OK then
        (Returned (len data, None),
         [Lwip (tcp_write (pcb conn) data (u16_t (len data)));
          Lwip (tcp_output (pcb conn))]%list)
      else if err =? ERR_MEM then
        (Returned (0, None),
         [Lwip (tcp_write (pcb conn) data (u16_t (len data)))]%list)
      else
        (Returned (0, Some (msg_tcp_write err)),
         [Lwip (tcp_write (pcb conn) data (u16_t (len data)))]%list)
  end.

(** One pass of the loop of [Write] sees the connection once: the flags as
    [isLocalClosed] and [isAborting] read them, the pcb as it is while
    [lwipMutex] is held, and the answer of the engine to a [tcp_write] made
    in that window.  Other goroutines and the engine change them between
    passes. *)
Record pass := {
  seen : tcpConn;
  tcp_write_ret : Z
}.

(** One pass of the loop of [Write], from the test of the loop to the
    [canWrite.Wait()] at its end; [wait] is the rest of the run once the
    writer is in [Wait], with the data and the count it carries there. *)
Definition Write_pass (wait : bytes -> Z -> run (Z * option string))
    (data : bytes) (totalWritten : Z) (now : pass)
  : run (Z * option string) :=
  let conn := seen now in
  if len data >? 0 then
    if isLocalClosed conn then
      (Returned (0, Some (msg_closed_by_local conn)), []%list)
    else if isAborting conn then
      (Returned (0, Some (msg_aborting conn)), []%list)
    else
      after [lwipMutex_Lock]%list
        (let toWrite := len data in
         let toWrite :=
           if toWrite >? snd_buf (pcb conn) then snd_buf (pcb conn)
           else toWrite in
         let continue (data : bytes) (totalWritten : Z) :=
           after [lwipMutex_Unlock]%list
             (if len data =? 0 then
                (Returned (totalWritten, None),
                 [canWrite_L_Unlock (connKey conn)]%list)
              else
                after [canWrite_Wait (connKey conn)]%list
                  (wait data totalWritten)) in
         if toWrite >? 0 then
           match tcpWrite conn (firstn (Z.to_nat toWrite) data)
                   (tcp_write_ret now) with
           | (Returned (written, err), evs) =>
               after evs
                 (let totalWritten := totalWritten + written in
                  match err with
                  | Some e =>
                      (Returned (totalWritten, Some e),
                       [lwipMutex_Unlock;
                        canWrite_L_Unlock (connKey conn)]%list)
                  | None =>
                      continue (skipn (Z.to_nat written) data) totalWritten
                  end)
           | (Panicked, evs) => (Panicked, evs)
           | (Waiting, evs) => (Waiting, evs)
           end
         else continue data totalWritten)
  else
    (Returned (totalWritten, None), [canWrite_L_Unlock (connKey conn)]%list).

(** The loop of [Write].  [now] is the current pass, [later] the passes that
    follow each [canWrite.Wait()]; the run is [Waiting] when the writer is
    blocked in [Wait] and nothing more was observed. *)
Fixpoint Write_loop (data : bytes) (totalWritten : Z)
    (now : pass) (later : list pass) : run (Z * option string) :=
  Write_pass
    (fun data totalWritten =>
       match later with
       | []%list => (Waiting, []%list)
       | (next :: later')%list => Write_loop data totalWritten next later'
       end)
    data totalWritten now.

(** [Write]. *)
Definition Write (data : bytes) (now : pass) (later : list pass)
  : run (Z * option string) :=
  let totalWritten := 0 in
  after [canWrite_L_Lock (connKey (seen now))]%list
    (Write_loop data totalWritten now later).

End WritePath.

(** The chunks handed to [tcp_write], in order. *)
Fixpoint tcp_write_chunks (log : list event) : list bytes :=
  match log with
  | []%list => []%list
  | (Lwip (tcp_write _ d _) :: log')%list => (d :: tcp_write_chunks log')%list
  | (_ :: log')%list => tcp_write_chunks log'
  end.

(** The bytes the engine took, call by call: a [tcp_write] that answered
    [ERR_OK] is followed by [tcp_output], and the engine took the [n] bytes
    it was told to take from the start of the chunk. *)
Fixpoint accepted_chunks (log : list event) : list bytes :=
  match log with
  | []%list => []%list
  | (Lwip (tcp_write _ d n) :: Lwip (tcp_output p) :: log')%list =>
      (firstn (Z.to_nat n) d :: accepted_chunks log')%list
  | (_ :: log')%list => accepted_chunks log'
  end.

(** The number of bytes the engine took. *)
Definition accepted_bytes (log : list event) : Z :=
  len (concat (accepted_chunks log)).

(** ** The callback side *)

(** The package-level state the callbacks share, and the log. *)
Record world := {
  tcpConnectionHandler : bool;
  tcpConns : gmap Z tcpConn;
  connKeyArgs : gmap N Z;
  log : list event
}.

(** Code that reads and writes the [world]. *)
Definition M (A : Type) : Type := world -> A * world.

#[export] Instance M_ret : MRet M := fun A a w => (a, w).
#[export] Instance M_bind : MBind M :=
  fun A B f m w => let (a, w') := m w in f a w'.

(** The world with [evs] added at the end of its log. *)
Definition add_log (w : world) (evs : list event) : world :=
  {| tcpConnectionHandler := tcpConnectionHandler w;
     tcpConns := tcpConns w;
     connKeyArgs := connKeyArgs w;
     log := (log w ++ evs)%list |}.

Definition emit (e : event) : M unit := fun w => (tt, add_log w [e]%list).

(** [tcpConns.Load], [tcpConns.Store] and [tcpConns.Delete]. *)
Definition tcpConns_Load (k : Z) : M (option tcpConn) := fun w =>
  (tcpConns w !! k, w).
Definition tcpConns_Store (k : Z) (conn : tcpConn) : M unit := fun w =>
  (tt, {| tcpConnectionHandler := tcpConnectionHandler w;
          tcpConns := <[k := conn]> (tcpConns w);
          connKeyArgs := connKeyArgs w;
          log := log w |}).
Definition tcpConns_Delete (k : Z) : M unit := fun w =>
  (tt, {| tcpConnectionHandler := tcpConnectionHandler w;
          tcpConns := delete k (tcpConns w);
          connKeyArgs := connKeyArgs w;
          log := log w |}).

(** Modelled from the spec: the native-argument slots ("allocate an identity
    key and native-argument slot", "frees its native-argument slot");
    [NewConnKeyArg], [SetConnKeyVal] and [FreeConnKeyArg] are in another
    file of the package.  [connKeyArgs] holds the slots that are allocated
    and the key each carries; the address a new slot gets is the
    allocator's choice, [arg]. *)
Definition NewConnKeyArg (arg : N) : M N := fun w =>
  (arg, {| tcpConnectionHandler := tcpConnectionHandler w;
           tcpConns := tcpConns w;
           connKeyArgs := <[arg := 0]> (connKeyArgs w);
           log := log w |}).
Definition SetConnKeyVal (arg : N) (k : Z) : M unit := fun w =>
  (tt, {| tcpConnectionHandler := tcpConnectionHandler w;
          tcpConns := tcpConns w;
          connKeyArgs := <[arg := k]> (connKeyArgs w);
          log := log w |}).
Definition FreeConnKeyArg (arg : N) : M unit := fun w =>
  (tt, {| tcpConnectionHandler := tcpConnectionHandler w;
          tcpConns := tcpConns w;
          connKeyArgs := delete arg (connKeyArgs w);
          log := log w |}).

(** The two handler notifications with a result: the call is logged and the
    handler answers from what was logged before it. *)
Definition handler_Connect (conn : tcpConn) (target : Addr)
  : M (option string) := fun w =>
  let (_, w') := emit (Handler (connKey conn) (HConnect target)) w in
  (Connect (handler conn) (log w) target, w').
Definition handler_DidReceive (conn : tcpConn) (data : bytes)
  : M (option string) := fun w =>
  let (_, w') := emit (Handler (connKey conn) (HDidReceive data)) w in
  (DidReceive (handler conn) (log w) data, w').

Section Callbacks.
Context {E : Engine}.

(** [NewTCPConnection].  [connKeyArg] is the slot the allocator hands out and
    [connKey] the draw of [rand.Uint32()]. *)
Definition NewTCPConnection (pcb0 : tcp_pcb) (handler0 : ConnectionHandler)
    (connKeyArg0 : N) (connKey0 : Z) : M (option tcpConn * option string) :=
  connKeyArg0 ← NewConnKeyArg connKeyArg0;
  SetConnKeyVal connKeyArg0 connKey0;;
  registered ← (fun w => (tcpConnectionHandler w, w));
  if negb registered then
    mret (None, Some msg_no_handler)
  else
    let conn := {|
      pcb := pcb0;
      handler := handler0;
      network := "tcp";
      localAddr :=
        ParseTCPAddr (IPAddrNTOA (remote_ip pcb0)) (u16_t (remote_port pcb0));
      remoteAddr :=
        ParseTCPAddr (IPAddrNTOA (local_ip pcb0)) (u16_t (local_port pcb0));
      connKeyArg := connKeyArg0;
      connKey := connKey0;
      closing := false;
      localClosed := false;
      aborting := false |} in
    tcpConns_Store connKey0 conn;;
    emit (Lwip (tcp_arg pcb0 (Some connKeyArg0)));;
    emit (Lwip (SetTCPRecvCallback pcb0));;
    emit (Lwip (SetTCPSentCallback pcb0));;
    emit (Lwip (SetTCPErrCallback pcb0));;
    emit (Lwip (SetTCPPollCallback pcb0 (TCP_POLL_INTERVAL mod 256)));;
    emit lwipMutex_Unlock;;
    err ← handler_Connect conn (RemoteAddr conn);
    emit lwipMutex_Lock;;
    match err with
    | Some e => mret (None, Some e)
    | None => mret (Some conn, None)
    end.

(** [Receive]. *)
Definition Receive (conn : tcpConn) (data : bytes) : M (option string) :=
  if isClosing conn then
    mret (Some (msg_closed_by_remote conn))
  else if isAborting conn then
    mret (Some (msg_aborting conn))
  else
    emit lwipMutex_Unlock;;
    err ← handler_DidReceive conn data;
    emit lwipMutex_Lock;;
    match err with
    | Some e => mret (Some (msg_write_proxy e))
    | None =>
        emit (Lwip (tcp_recved (pcb conn) (u16_t (len data))));;
        mret None
    end.

(** [Release]. *)
Definition Release (conn : tcpConn) : M unit :=
  found ← tcpConns_Load (connKey conn);
  match found with
  | Some _ =>
      FreeConnKeyArg (connKeyArg conn);;
      tcpConns_Delete (connKey conn)
  | None => mret tt
  end.

(** [closeInternal].  [close_ret] is what [C.tcp_close] answers. *)
Definition closeInternal (conn : tcpConn) (close_ret : Z)
  : M (option string) :=
  emit (Lwip (tcp_arg (pcb conn) None));;
  emit (Lwip (tcp_recv_nil (pcb conn)));;
  emit (Lwip (tcp_sent_nil (pcb conn)));;
  emit (Lwip (tcp_err_nil (pcb conn)));;
  emit (Lwip (tcp_poll_nil (pcb conn)));;
  Release conn;;
  emit (cancel (connKey conn));;
  emit (Lwip (tcp_close (pcb conn)));;
  let err := close_ret in
  if err =? ERR_OK then mret None
  else mret (Some (msg_tcp_close err)).

(** [abortInternal]. *)
Definition abortInternal (conn : tcpConn) : M unit :=
  Release conn;;
  emit (Lwip (tcp_abort (pcb conn))).

(** [CheckState]. *)
Definition CheckState (conn : tcpConn) (close_ret : Z) : M lwipError :=
  if negb (isLocalClosed conn) then
    emit (canWrite_Broadcast (connKey conn));;
    mret LWIP_ERR_OK
  else
    (if isClosing conn || isLocalClosed conn then
       closeInternal conn close_ret;; mret tt
     else mret tt);;
    if isAborting conn then
      abortInternal conn;;
      mret LWIP_ERR_ABRT
    else
      mret LWIP_ERR_OK.

(** [Sent]. *)
Definition Sent (conn : tcpConn) (n : Z) (close_ret : Z) : M lwipError :=
  emit (Handler (connKey conn) (HDidSend n));;
  CheckState conn close_ret.

(** [Close], [setLocalClosed] and [Abort] write a flag of the receiver and
    hand the connection back. *)
Definition Close (conn : tcpConn) : M tcpConn :=
  mret (set_closing conn).

Definition setLocalClosed (conn : tcpConn) : M tcpConn :=
  let conn := set_localClosed conn in
  emit (canWrite_Broadcast (connKey conn));;
  mret conn.

Definition Abort (conn : tcpConn) : M tcpConn :=
  let conn := set_aborting conn in
  emit (canWrite_Broadcast (connKey conn));;
  mret conn.

(** [Err]. *)
Definition Err (conn : tcpConn) : M unit :=
  Release conn;;
  emit (cancel (connKey conn));;
  emit (Handler (connKey conn) HDidClose).

(** [LocalDidClose]. *)
Definition LocalDidClose (conn : tcpConn) (close_ret : Z)
  : M (tcpConn * lwipError) :=
  emit (Handler (connKey conn) HLocalDidClose);;
  conn ← setLocalClosed conn;
  r ← CheckState conn close_ret;
  mret (conn, r).

(** [Poll]. *)
Definition Poll (conn : tcpConn) (close_ret : Z) : M lwipError :=
  CheckState conn close_ret.

End Callbacks.

(** ** Reading a log *)

(** The buffers the handler was given through [DidReceive], in order. *)
Fixpoint didReceive_calls (l : list event) : list bytes :=
  match l with
  | []%list => []%list
  | (Handler _ (HDidReceive d) :: l')%list => (d :: didReceive_calls l')%list
  | (_ :: l')%list => didReceive_calls l'
  end.

(** The counts given to [tcp_recved], in order. *)
Fixpoint tcp_recved_calls (l : list event) : list Z :=
  match l with
  | []%list => []%list
  | (Lwip (tcp_recved _ n) :: l')%list => (n :: tcp_recved_calls l')%list
  | (_ :: l')%list => tcp_recved_calls l'
  end.

(** The pcbs given to [tcp_close], and those given to [tcp_abort]. *)
Fixpoint tcp_close_calls (l : list event) : list tcp_pcb :=
  match l with
  | []%list => []%list
  | (Lwip (tcp_close p) :: l')%list => (p :: tcp_close_calls l')%list
  | (_ :: l')%list => tcp_close_calls l'
  end.

Fixpoint tcp_abort_calls (l : list event) : list tcp_pcb :=
  match l with
  | []%list => []%list
  | (Lwip (tcp_abort p) :: l')%list => (p :: tcp_abort_calls l')%list
  | (_ :: l')%list => tcp_abort_calls l'
  end.

(** A [tcp_write] of the log is well formed when its chunk has a first byte
    and fits the send buffer the pcb advertises at the call. *)
Definition tcp_write_ok (e : event) : Prop :=
  match e with
  | Lwip (tcp_write p d _) => d <> []%list /\ len d <= snd_buf p
  | _ => True
  end.

(** A run of [Write] is sound when every [tcp_write] in its log is well
    formed and it did not panic. *)
Definition sound (r : run (Z * option string)) : Prop :=
  Forall tcp_write_ok (snd r) /\ fst r <> Panicked.

(** The world once the entry of [conn] and its slot are gone. *)
Definition released (conn : tcpConn) (w : world) : world :=
  {| tcpConnectionHandler := tcpConnectionHandler w;
     tcpConns := delete (connKey conn) (tcpConns w);
     connKeyArgs := delete (connKeyArg conn) (connKeyArgs w);
     log := log w |}.

(** The calls of the graceful release, in order. *)
Definition close_events (conn : tcpConn) : list event :=
  [Lwip (tcp_arg (pcb conn) None);
   Lwip (tcp_recv_nil (pcb conn));
   Lwip (tcp_sent_nil (pcb conn));
   Lwip (tcp_err_nil (pcb conn));
   Lwip (tcp_poll_nil (pcb conn));
   cancel (connKey conn);
   Lwip (tcp_close (pcb conn))]%list.

(** What one accepted buffer adds to the log of [Receive]. *)
Definition receive_events (conn : tcpConn) (data : bytes) : list event :=
  [lwipMutex_Unlock;
   Handler (connKey conn) (HDidReceive data);
   lwipMutex_Lock;
   Lwip (tcp_recved (pcb conn) (u16_t (len data)))]%list.

(** What [NewTCPConnection] logs before it calls [Connect]. *)
Definition install_events (pcb0 : tcp_pcb) (arg : N) (interval : Z)
  : list event :=
  [Lwip (tcp_arg pcb0 (Some arg));
   Lwip (SetTCPRecvCallback pcb0);
   Lwip (SetTCPSentCallback pcb0);
   Lwip (SetTCPErrCallback pcb0);
   Lwip (SetTCPPollCallback pcb0 interval);
   lwipMutex_Unlock]%list.

(** A run of [Write] that started with [totalWritten] counted and [data] to
    go counts right when, if it returns without error, the count has grown
    by all of [data] and the chunks the engine took since make up [data]. *)
Definition counts_right (totalWritten : Z) (data : bytes)
    (r : run (Z * option string)) : Prop :=
  forall n, fst r = Returned (n, None) ->
    n = totalWritten + len data /\ concat (accepted_chunks (snd r)) = data.

(** ** Drivers *)

Section Drivers.
Context {E : Engine}.

(** The engine delivering one buffer after the other to [Receive]. *)
Fixpoint Receive_all (conn : tcpConn) (bufs : list bytes)
  : M (list (option string)) :=
  match bufs with
  | []%list => mret []%list
  | (b :: bufs')%list =>
      r ← Receive conn b;
      rs ← Receive_all conn bufs';
      mret (r :: rs)%list
  end.

(** The callbacks through which the engine comes back to [CheckState] on
    its own: an acknowledgement of [n] bytes, or the periodic poll. *)
Inductive callback :=
| OnSent (n : Z)
| OnPoll.

Definition run_callback (conn : tcpConn) (close_ret : Z) (cb : callback)
  : M lwipError :=
  match cb with
  | OnSent n => Sent conn n close_ret
  | OnPoll => Poll conn close_ret
  end.

(** The engine making the callbacks [cbs] one after the other. *)
Fixpoint run_callbacks (conn : tcpConn) (close_ret : Z)
    (cbs : list callback) : M (list lwipError) :=
  match cbs with
  | []%list => mret []%list
  | (cb :: cbs')%list =>
      r ← run_callback conn close_ret cb;
      rs ← run_callbacks conn close_ret cbs';
      mret (r :: rs)%list
  end.

End Drivers.

(** ** Sample values *)

Definition sample_pcb (capacity : Z) : tcp_pcb :=
  {| pcb_ref := 1; snd_buf := capacity;
     local_ip := 167772161; local_port := 443;
     remote_ip := 167772162; remote_port := 50000 |}.

(** A handler that accepts everything. *)
Definition accepting : ConnectionHandler :=
  {| Connect := fun _ _ => None; DidReceive := fun _ _ => None |}.

(** A handler that refuses to connect. *)
Definition refusing : ConnectionHandler :=
  {| Connect := fun _ _ => Some "dial failed";
     DidReceive := fun _ _ => None |}.

Definition sample_conn (capacity : Z) (closing0 localClosed0 aborting0 : bool)
  : tcpConn :=
  {| pcb := sample_pcb capacity; handler := accepting; network := "tcp";
     remoteAddr := "10.0.0.1:443"; localAddr := "10.0.0.2:50000";
     connKeyArg := 7; connKey := 42;
     closing := closing0; localClosed := localClosed0;
     aborting := aborting0 |}.

(** A world in which the sample connection is registered. *)
Definition sample_world : world :=
  {| tcpConnectionHandler := true;
     tcpConns := {[ 42 := sample_conn 0 false false false ]};
     connKeyArgs := {[ 7%N := 42 ]};
     log := []%list |}.

(** A world with a registered acceptor and nothing else. *)
Definition fresh_world : world :=
  {| tcpConnectionHandler := true;
     tcpConns := ∅; connKeyArgs := ∅; log := []%list |}.

Definition zeros (n : nat) : bytes := repeat Byte.x00 n.

(** A pass of [Write] over the sample connection. *)
Definition sample_pass (capacity : Z) (localClosed0 aborting0 : bool)
    (ret : Z) : pass :=
  {| seen := sample_conn capacity false localClosed0 aborting0;
     tcp_write_ret := ret |}.

(** ** More ways to read a log *)

(** How often [canWrite.L] is released, and how often a writer goes to
    [canWrite.Wait()]. *)
Fixpoint canWrite_L_unlocks (l : list event) : nat :=
  match l with
  | []%list => O
  | (canWrite_L_Unlock _ :: l')%list => S (canWrite_L_unlocks l')
  | (_ :: l')%list => canWrite_L_unlocks l'
  end.

Fixpoint canWrite_waits (l : list event) : nat :=
  match l with
  | []%list => O
  | (canWrite_Wait _ :: l')%list => S (canWrite_waits l')
  | (_ :: l')%list => canWrite_waits l'
  end.

(** Following [lwipMutex] along a log that starts with the mutex [held] or
    not: [None] if the mutex is locked while held, unlocked while free, or a
    call into lwIP is made without it; otherwise whether it is held at the
    end. *)
Fixpoint lwipMutex_after (held : bool) (l : list event) : option bool :=
  match l with
  | []%list => Some held
  | (lwipMutex_Lock :: l')%list =>
      if held then None else lwipMutex_after true l'
  | (lwipMutex_Unlock :: l')%list =>
      if held then lwipMutex_after false l' else None
  | (Lwip _ :: l')%list =>
      if held then lwipMutex_after held l' else None
  | (_ :: l')%list => lwipMutex_after held l'
  end.

(** The notifications to the handler, each with whether [lwipMutex] is held
    when it is made. *)
Fixpoint handler_calls_with_lock (held : bool) (l : list event)
  : list (handler_call * bool) :=
  match l with
  | []%list => []%list
  | (lwipMutex_Lock :: l')%list => handler_calls_with_lock true l'
  | (lwipMutex_Unlock :: l')%list => handler_calls_with_lock false l'
  | (Handler _ h :: l')%list => ((h, held) :: handler_calls_with_lock held l')%list
  | (_ :: l')%list => handler_calls_with_lock held l'
  end.


(** A pass of [Write] on which [Close] has been called in between. *)
Definition with_closing (p : pass) : pass :=
  {| seen := set_closing (seen p); tcp_write_ret := tcp_write_ret p |}.

(** A pass on which [Write] can hand bytes to the engine and the engine
    takes them. *)
Definition pass_open {E : Engine} (p : pass) : Prop :=
  localClosed (seen p) = false /\ aborting (seen p) = false /\
  0 < snd_buf (pcb (seen p)) /\ tcp_write_ret p = ERR_OK.

(** ** A connection over time *)

(** What can happen to a connection once it exists: the four callbacks of
    the engine, the local-close notification, and the two calls of the
    handler side.  A callback that reaches [tcp_close] carries the answer of
    the engine to it. *)
Inductive op :=
| OpReceive (data : bytes)
| OpSent (n : Z) (close_ret : Z)
| OpPoll (close_ret : Z)
| OpLocalDidClose (close_ret : Z)
| OpErr
| OpClose
| OpAbort.

Section Lifetime.
Context {E : Engine}.

(** One operation on [conn]; the connection is handed back with the flags
    the operation wrote. *)
Definition step (conn : tcpConn) (o : op) : M tcpConn :=
  match o with
  | OpReceive data => Receive conn data;; mret conn
  | OpSent n close_ret => Sent conn n close_ret;; mret conn
  | OpPoll close_ret => Poll conn close_ret;; mret conn
  | OpLocalDidClose close_ret =>
      r ← LocalDidClose conn close_ret; mret (fst r)
  | OpErr => Err conn;; mret conn
  | OpClose => Close conn
  | OpAbort => Abort conn
  end.

(** The operations [os] one after the other. *)
Fixpoint steps (conn : tcpConn) (os : list op) : M tcpConn :=
  match os with
  | []%list => mret conn
  | (o :: os')%list => conn' ← step conn o; steps conn' os'
  end.

End Lifetime.


(** Reading the code back from a [tcp_close] failure text. *)
Definition tcp_close_prefix : string :=
  "close TCP connection failed, lwip error code ".

Definition code_of_tcp_close_msg (m : string) : option Z :=
  match strip_prefix tcp_close_prefix m with
  | Some numeral => parse_int numeral
  | None => None
  end.

(** ** The ways through one pass of [Write] *)

Section WritePassCases.
Context {E : Engine}.

(** The seven ways through one pass of the loop of [Write], each with the
    run it gives: the loop is over; [localClosed] is seen; [aborting] is
    seen; nothing is taken (no room, or [ERR_MEM]) and the writer waits with
    the same data; the engine takes the chunk and it was the last; the
    engine takes the chunk and the writer waits with the rest; the engine
    fails. *)
Inductive Write_pass_case (wait : bytes -> Z -> run (Z * option string))
    (data : bytes) (totalWritten : Z) (now : pass)
    (r : run (Z * option string)) : Prop :=
| pass_over :
    data = []%list ->
    r = (Returned (totalWritten, None),
         [canWrite_L_Unlock (connKey (seen now))]%list) ->
    Write_pass_case wait data totalWritten now r
| pass_localClosed :
    data <> []%list ->
    localClosed (seen now) = true ->
    r = (Returned (0, Some (msg_closed_by_local (seen now))), []%list) ->
    Write_pass_case wait data totalWritten now r
| pass_aborting :
    data <> []%list ->
    localClosed (seen now) = false ->
    aborting (seen now) = true ->
    r = (Returned (0, Some (msg_aborting (seen now))), []%list) ->
    Write_pass_case wait data totalWritten now r
| pass_idle (tried : list event) :
    data <> []%list ->
    localClosed (seen now) = false ->
    aborting (seen now) = false ->
    (snd_buf (pcb (seen now)) <= 0 /\ tried = []%list) \/
    (exists chunk,
       0 < snd_buf (pcb (seen now)) /\
       tcp_write_ret now <> ERR_OK /\ tcp_write_ret now = ERR_MEM /\
       tried = [Lwip (tcp_write (pcb (seen now)) chunk (u16_t (len chunk)))]%list) ->
    r = after ([lwipMutex_Lock] ++ tried ++
               [lwipMutex_Unlock; canWrite_Wait (connKey (seen now))])%list
          (wait data totalWritten) ->
    Write_pass_case wait data totalWritten now r
| pass_last :
    data <> []%list ->
    localClosed (seen now) = false ->
    aborting (seen now) = false ->
    len data <= snd_buf (pcb (seen now)) ->
    tcp_write_ret now = ERR_OK ->
    r = (Returned (totalWritten + len data, None),
         [lwipMutex_Lock;
          Lwip (tcp_write (pcb (seen now)) data (u16_t (len data)));
          Lwip (tcp_output (pcb (seen now)));
          lwipMutex_Unlock;
          canWrite_L_Unlock (connKey (seen now))]%list) ->
    Write_pass_case wait data totalWritten now r
| pass_more (chunk rest : bytes) :
    localClosed (seen now) = false ->
    aborting (seen now) = false ->
    (chunk ++ rest)%list = data ->
    chunk <> []%list ->
    rest <> []%list ->
    len chunk = snd_buf (pcb (seen now)) ->
    tcp_write_ret now = ERR_OK ->
    r = after [lwipMutex_Lock;
               Lwip (tcp_write (pcb (seen now)) chunk (u16_t (len chunk)));
               Lwip (tcp_output (pcb (seen now)));
               lwipMutex_Unlock;
               canWrite_Wait (connKey (seen now))]%list
          (wait rest (totalWritten + len chunk)) ->
    Write_pass_case wait data totalWritten now r
| pass_failed (chunk : bytes) :
    data <> []%list ->
    localClosed (seen now) = false ->
    aborting (seen now) = false ->
    0 < snd_buf (pcb (seen now)) ->
    tcp_write_ret now <> ERR_OK ->
    tcp_write_ret now <> ERR_MEM ->
    r = (Returned (totalWritten, Some (msg_tcp_write (tcp_write_ret now))),
         [lwipMutex_Lock;
          Lwip (tcp_write (pcb (seen now)) chunk (u16_t (len chunk)));
          lwipMutex_Unlock;
          canWrite_L_Unlock (connKey (seen now))]%list) ->
    Write_pass_case wait data totalWritten now r.

End WritePassCases.

(** * Properties *)

(** ** Numerals and error texts *)

Lemma u16_t_small (n : Z) : 0 <= n < 65536 -> u16_t n = n.
Proof. intros H. unfold u16_t. now apply Z.mod_small. Qed.

Lemma to_int_not_pos_nil (z : Z) : Z.to_int z <> Decimal.Pos Decimal.Nil.
Proof.
  destruct z as [|p|p]; simpl; try discriminate.
  intros [= H]. exact (Unsigned.to_uint_nonnil p H).
Qed.

Lemma to_int_not_neg_nil (z : Z) : Z.to_int z <> Decimal.Neg Decimal.Nil.
Proof.
  destruct z as [|p|p]; simpl; try discriminate.
  intros [= H]. exact (Unsigned.to_uint_nonnil p H).
Qed.

(** A printed [int] reads back as itself. *)
Lemma parse_fmt_int (z : Z) : parse_int (fmt_int z) = Some z.
Proof.
  unfold parse_int, fmt_int.
  rewrite NilZero.isi
    by (apply to_int_not_pos_nil || apply to_int_not_neg_nil).
  simpl. f_equal. apply DecimalZ.of_to.
Qed.

Lemma strip_prefix_app (p s : string) : strip_prefix p (p ++ s) = Some s.
Proof.
  induction p as [|a p IH]; simpl; [reflexivity|].
  rewrite Ascii.eqb_refl. exact IH.
Qed.

(** The code of a [tcp_write] failure can be read off its text. *)
Lemma code_of_msg_tcp_write (code : Z) :
  code_of_tcp_write_msg (msg_tcp_write code) = Some code.
Proof.
  unfold code_of_tcp_write_msg, msg_tcp_write.
  rewrite strip_prefix_app. apply parse_fmt_int.
Qed.

(** The three state texts differ, whatever the addresses. *)
Lemma append_inj_l (p s t : string) : p ++ s = p ++ t -> s = t.
Proof.
  induction p as [|a p IH]; simpl; [trivial|].
  intros [= H]. auto.
Qed.

Lemma msg_closed_by_remote_not_aborting (conn : tcpConn) :
  msg_closed_by_remote conn <> msg_aborting conn.
Proof.
  unfold msg_closed_by_remote, msg_aborting. intros H.
  do 4 apply append_inj_l in H. discriminate H.
Qed.

(** ** [tcpWrite] *)

Section WriteProperties.
Context {E : Engine}.

Lemma len_nonneg {A} (l : list A) : 0 <= len l.
Proof. unfold len. lia. Qed.

Lemma len_pos_iff {A} (l : list A) : 0 < len l <-> l <> []%list.
Proof.
  unfold len. destruct l; simpl; split; intros H; try lia; congruence.
Qed.

(** C7. Given a chunk it can take the first byte of, [tcpWrite] returns
    the length of the chunk and no error when the engine answers [ERR_OK],
    zero and no error when it answers [ERR_MEM], and for every other code
    zero with an error whose text carries the code, which can be read back
    from it.  An answer of [ERR_MEM] never comes out as an error. *)
Theorem tcpWrite_result (conn : tcpConn) (data : bytes) (ret : Z) :
  ERR_OK <> ERR_MEM ->
  data <> []%list ->
  (ret = ERR_OK ->
     fst (tcpWrite conn data ret) = Returned (len data, None)) /\
  (ret = ERR_MEM ->
     fst (tcpWrite conn data ret) = Returned (0, None)) /\
  (ret <> ERR_OK -> ret <> ERR_MEM ->
     exists m,
       fst (tcpWrite conn data ret) = Returned (0, Some m) /\
       m = msg_tcp_write ret /\
       code_of_tcp_write_msg m = Some ret) /\
  tcp_write_chunks (snd (tcpWrite conn data ret)) = [data]%list.
Proof.
  intros Hcodes Hdata.
  destruct data as [|b data]; [congruence|].
  unfold tcpWrite.
  repeat split.
  - intros ->. now rewrite Z.eqb_refl.
  - intros ->. destruct (Z.eqb_spec ERR_MEM ERR_OK) as [Heq|_];
      [congruence|]. now rewrite Z.eqb_refl.
  - intros Hok Hmem. exists (msg_tcp_write ret).
    destruct (Z.eqb_spec ret ERR_OK); [congruence|].
    destruct (Z.eqb_spec ret ERR_MEM); [congruence|].
    repeat split. apply code_of_msg_tcp_write.
  - destruct (ret =? ERR_OK); [reflexivity|].
    destruct (ret =? ERR_MEM); reflexivity.
Qed.

End WriteProperties.

Lemma tcpWrite_result_witness :
  (fst (tcpWrite (E:=lwip2) (sample_conn 8 false false false) (zeros 3) 0)
     = Returned (3, None)) /\
  (fst (tcpWrite (E:=lwip2) (sample_conn 8 false false false) (zeros 3) (-1))
     = Returned (0, None)) /\
  (exists m,
     fst (tcpWrite (E:=lwip2) (sample_conn 8 false false false) (zeros 3) (-6))
       = Returned (0, Some m) /\
     code_of_tcp_write_msg m = Some (-6)).
Proof.
  assert (Hcodes : @ERR_OK lwip2 <> @ERR_MEM lwip2) by (simpl; lia).
  assert (Hdata : zeros 3 <> []%list) by (simpl; discriminate).
  split; [|split].
  - apply (tcpWrite_result (E:=lwip2) (sample_conn 8 false false false)
             (zeros 3) 0 Hcodes Hdata). reflexivity.
  - apply (tcpWrite_result (E:=lwip2) (sample_conn 8 false false false)
             (zeros 3) (-1) Hcodes Hdata). reflexivity.
  - destruct (tcpWrite_result (E:=lwip2) (sample_conn 8 false false false)
                (zeros 3) (-6) Hcodes Hdata) as (_ & _ & H & _).
    destruct H as (m & Hm & _ & Hc); [simpl; lia | simpl; lia |].
    exists m. split; assumption.
Defined.

(** ** The loop of [Write] *)

Section WriteLoopProperties.
Context {E : Engine}.

Lemma fst_after {A} (evs : list event) (r : run A) :
  fst (after evs r) = fst r.
Proof. reflexivity. Qed.

Lemma snd_after {A} (evs : list event) (r : run A) :
  snd (after evs r) = (evs ++ snd r)%list.
Proof. reflexivity. Qed.

(** The chunk [data[0:toWrite]] has [toWrite] bytes when [toWrite] is within
    the data. *)
Lemma len_firstn (data : bytes) (n : Z) :
  0 <= n <= len data -> len (firstn (Z.to_nat n) data) = n.
Proof.
  unfold len. intros H. rewrite length_firstn. lia.
Qed.

Lemma sound_after (evs : list event) (r : run (Z * option string)) :
  Forall tcp_write_ok evs -> sound r -> sound (after evs r).
Proof.
  intros Hevs [Hlog Hres]. split.
  - rewrite snd_after. apply Forall_app. split; assumption.
  - rewrite fst_after. exact Hres.
Qed.

Lemma sound_returned (a : Z * option string) (evs : list event) :
  Forall tcp_write_ok evs -> sound (Returned a, evs).
Proof. intros H. split; [exact H | discriminate]. Qed.

(** The log of one [tcpWrite] on a chunk with a first byte. *)
Lemma tcpWrite_shape (conn : tcpConn) (chunk : bytes) (ret : Z) :
  chunk <> []%list ->
  exists written err evs,
    tcpWrite conn chunk ret = (Returned (written, err), evs) /\
    (written = 0 \/ written = len chunk) /\
    Forall (fun e =>
              e = Lwip (tcp_write (pcb conn) chunk (u16_t (len chunk))) \/
              e = Lwip (tcp_output (pcb conn))) evs.
Proof.
  intros Hne. destruct chunk as [|b chunk]; [congruence|].
  unfold tcpWrite.
  destruct (ret =? ERR_OK); [|destruct (ret =? ERR_MEM)];
    do 3 eexists; (split; [reflexivity|]); (split; [auto|]);
    repeat (apply Forall_cons; split; [auto|]); now apply Forall_nil.
Qed.

Ltac quiet := repeat constructor; simpl; trivial.

(** One pass keeps the run sound if the rest of the run is. *)
Lemma Write_pass_sound (wait : bytes -> Z -> run (Z * option string))
    (data : bytes) (totalWritten : Z) (now : pass) :
  (forall d t, sound (wait d t)) ->
  sound (Write_pass wait data totalWritten now).
Proof.
  intros Hwait. unfold Write_pass.
  destruct (Z.gtb_spec (len data) 0) as [Hlen|Hlen];
    [|apply sound_returned; quiet].
  destruct (isLocalClosed (seen now)); [apply sound_returned; quiet|].
  destruct (isAborting (seen now)); [apply sound_returned; quiet|].
  apply sound_after; [quiet|].
  assert (Hcont : forall d t,
    sound (after [lwipMutex_Unlock]%list
             (if len d =? 0
              then (Returned (t, None),
                    [canWrite_L_Unlock (connKey (seen now))]%list)
              else after [canWrite_Wait (connKey (seen now))]%list
                     (wait d t)))).
  { intros d t. apply sound_after; [quiet|].
    destruct (len d =? 0); [apply sound_returned; quiet|].
    apply sound_after; [quiet | apply Hwait]. }
  set (toWrite := if len data >? snd_buf (pcb (seen now))
                  then snd_buf (pcb (seen now)) else len data).
  assert (Hle : toWrite <= len data /\ toWrite <= snd_buf (pcb (seen now))).
  { unfold toWrite.
    destruct (Z.gtb_spec (len data) (snd_buf (pcb (seen now)))); lia. }
  destruct (Z.gtb_spec toWrite 0) as [Hpos|Hpos]; [|apply Hcont].
  assert (Hchunk : len (firstn (Z.to_nat toWrite) data) = toWrite)
    by (apply len_firstn; lia).
  assert (Hne : firstn (Z.to_nat toWrite) data <> []%list)
    by (apply len_pos_iff; lia).
  destruct (tcpWrite_shape (seen now) _ (tcp_write_ret now) Hne)
    as (written & err & evs & -> & _ & Hevs).
  apply sound_after.
  - eapply Forall_impl; [exact Hevs|]. intros e [-> | ->]; simpl; [|trivial].
    split; [exact Hne | lia].
  - destruct err; [apply sound_returned; quiet | apply Hcont].
Qed.

Lemma Write_loop_sound (later : list pass) :
  forall (data : bytes) (totalWritten : Z) (now : pass),
    sound (Write_loop data totalWritten now later).
Proof.
  induction later as [|next later IH]; intros data totalWritten now;
    simpl; apply Write_pass_sound; intros d t.
  - split; [constructor | discriminate].
  - apply IH.
Qed.

(** C9. In every run of [Write], each [tcp_write] is made with a chunk that
    has a first byte and is no longer than the send buffer the pcb
    advertises at that call, and the run never panics on [data[0]]. *)
Theorem Write_chunks_fit (data : bytes) (now : pass) (later : list pass) :
  Forall tcp_write_ok (snd (Write data now later)) /\
  fst (Write data now later) <> Panicked.
Proof.
  unfold Write. apply sound_after; [quiet | apply Write_loop_sound].
Qed.

(** A write of nothing on a connection that is already closed by the local
    side: the loop is not entered and the call succeeds. *)
Lemma Write_nothing_after_localClosed :
  forall now later,
    Write []%list now later =
      (Returned (0, None),
       [canWrite_L_Lock (connKey (seen now));
        canWrite_L_Unlock (connKey (seen now))]%list).
Proof. intros now [|next later]; reflexivity. Qed.

(** C6, as amended. A [Write] of at least one byte on a connection whose
    [localClosed] flag is set when the call starts returns at once with zero
    bytes and the closed-by-local error; nothing is handed to the engine,
    whatever send buffer the pcb advertises. *)
Theorem Write_after_localClosed (data : bytes) (now : pass)
    (later : list pass) :
  data <> []%list ->
  localClosed (seen now) = true ->
  Write data now later =
    (Returned (0, Some (msg_closed_by_local (seen now))),
     [canWrite_L_Lock (connKey (seen now))]%list).
Proof.
  intros Hdata Hclosed.
  apply len_pos_iff in Hdata.
  unfold Write. destruct later; simpl; unfold Write_pass;
    (destruct (Z.gtb_spec (len data) 0); [|lia]);
    unfold isLocalClosed; rewrite Hclosed; reflexivity.
Qed.

Lemma Write_loop_unfold (data : bytes) (totalWritten : Z) (now : pass)
    (later : list pass) :
  Write_loop data totalWritten now later =
    Write_pass
      (fun d t =>
         match later with
         | []%list => (Waiting, []%list)
         | (next :: later')%list => Write_loop d t next later'
         end)
      data totalWritten now.
Proof. destruct later; reflexivity. Qed.

(** A pass that finds a flag set with data left returns zero and an error,
    whatever was counted so far. *)
Lemma Write_pass_flag (wait : bytes -> Z -> run (Z * option string))
    (data : bytes) (totalWritten : Z) (now : pass) :
  0 < len data ->
  localClosed (seen now) = true \/ aborting (seen now) = true ->
  exists m,
    Write_pass wait data totalWritten now = (Returned (0, Some m), []%list).
Proof.
  intros Hlen Hflag. unfold Write_pass.
  destruct (Z.gtb_spec (len data) 0); [|lia].
  unfold isLocalClosed, isAborting.
  destruct Hflag as [-> | ->]; [eauto|].
  destruct (localClosed (seen now)); eauto.
Qed.

(** [tcpWrite] when the engine takes the chunk. *)
Lemma tcpWrite_ok (conn : tcpConn) (chunk : bytes) :
  chunk <> []%list ->
  tcpWrite conn chunk ERR_OK =
    (Returned (len chunk, None),
     [Lwip (tcp_write (pcb conn) chunk (u16_t (len chunk)));
      Lwip (tcp_output (pcb conn))]%list).
Proof.
  intros Hne. destruct chunk; [congruence|].
  unfold tcpWrite. now rewrite Z.eqb_refl.
Qed.

Lemma len_app {A} (l l' : list A) : len (l ++ l') = len l + len l'.
Proof. unfold len. rewrite length_app. lia. Qed.

Lemma len_zero_nil {A} (l : list A) : len l <= 0 -> l = []%list.
Proof. destruct l; [reflexivity|]. unfold len. simpl. lia. Qed.

(** A chunk shorter than 65536 bytes is taken whole. *)
Lemma firstn_u16_len (chunk : bytes) :
  len chunk < 65536 -> firstn (Z.to_nat (u16_t (len chunk))) chunk = chunk.
Proof.
  intros H. rewrite u16_t_small by (split; [apply len_nonneg | exact H]).
  unfold len. rewrite Nat2Z.id. apply firstn_all.
Qed.

(** One pass counts right if the rest of the run does, as long as the send
    buffer it sees fits a [u16_t]. *)
Lemma Write_pass_counts_right (wait : bytes -> Z -> run (Z * option string))
    (data : bytes) (totalWritten : Z) (now : pass) :
  snd_buf (pcb (seen now)) < 65536 ->
  (forall d t, counts_right t d (wait d t)) ->
  counts_right totalWritten data (Write_pass wait data totalWritten now).
Proof.
  intros Hcap Hwait. unfold Write_pass.
  destruct (Z.gtb_spec (len data) 0) as [Hlen|Hlen].
  2: { intros n [= <-]. apply len_zero_nil in Hlen. subst data.
       split; [unfold len; simpl; lia | reflexivity]. }
  destruct (isLocalClosed (seen now)); [intros n [=]|].
  destruct (isAborting (seen now)); [intros n [=]|].
  assert (Hcont : forall d t,
    counts_right t d
      (after [lwipMutex_Unlock]%list
         (if len d =? 0
          then (Returned (t, None),
                [canWrite_L_Unlock (connKey (seen now))]%list)
          else after [canWrite_Wait (connKey (seen now))]%list
                 (wait d t)))).
  { intros d t n. destruct (Z.eqb_spec (len d) 0) as [Hd|Hd].
    - intros [= <-]. assert (d = []%list) by (apply len_zero_nil; lia).
      subst d. split; [unfold len; simpl; lia | reflexivity].
    - apply Hwait. }
  set (toWrite := if len data >? snd_buf (pcb (seen now))
                  then snd_buf (pcb (seen now)) else len data).
  assert (Hle : toWrite <= len data /\ toWrite < 65536).
  { unfold toWrite.
    destruct (Z.gtb_spec (len data) (snd_buf (pcb (seen now)))); lia. }
  destruct (Z.gtb_spec toWrite 0) as [Hpos|Hpos];
    [|intros n; apply (Hcont data totalWritten n)].
  assert (Hchunk : len (firstn (Z.to_nat toWrite) data) = toWrite)
    by (apply len_firstn; lia).
  assert (Hsplit := firstn_skipn (Z.to_nat toWrite) data).
  assert (Hwhole := firstn_u16_len (firstn (Z.to_nat toWrite) data)).
  destruct (firstn (Z.to_nat toWrite) data) as [|b chunk] eqn:Hfirst;
    [unfold len in Hchunk; simpl in Hchunk; lia|].
  unfold tcpWrite.
  destruct (tcp_write_ret now =? ERR_OK);
    [|destruct (tcp_write_ret now =? ERR_MEM)].
  - intros n Hn. rewrite Hchunk in Hn.
    destruct (Hcont (skipn (Z.to_nat toWrite) data) (totalWritten + toWrite)
                n Hn) as [Hcount Hchunks].
    split.
    + pose proof (f_equal len Hsplit) as Hl.
      rewrite len_app, Hchunk in Hl. lia.
    + cbn [after fst snd app accepted_chunks concat] in *.
      rewrite Hwhole by lia. rewrite Hchunk, Hchunks. exact Hsplit.
  - intros n Hn. rewrite Z.add_0_r in Hn. cbn [Z.to_nat skipn] in Hn.
    destruct (Hcont data totalWritten n Hn) as [Hcount Hchunks].
    split; [exact Hcount|].
    rewrite Z.add_0_r. cbn [Z.to_nat skipn].
    cbn [after fst snd app accepted_chunks] in *. exact Hchunks.
  - intros n [=].
Qed.

Lemma Write_loop_counts_right (later : list pass) :
  forall (data : bytes) (totalWritten : Z) (now : pass),
    Forall (fun p => snd_buf (pcb (seen p)) < 65536) (now :: later) ->
    counts_right totalWritten data (Write_loop data totalWritten now later).
Proof.
  induction later as [|next later IH]; intros data totalWritten now Hcaps;
    apply Forall_cons in Hcaps as [Hnow Hlater];
    simpl; apply Write_pass_counts_right; try exact Hnow; intros d t.
  - intros n [=].
  - apply IH. exact Hlater.
Qed.

(** A [Write] that returns without error has handed all of [data] to the
    engine, in order and once, and returns its length; the send buffers are
    taken to fit a [u16_t], as the length given to [tcp_write] has to. *)
Lemma Write_success (data : bytes) (now : pass) (later : list pass) (n : Z) :
  Forall (fun p => snd_buf (pcb (seen p)) < 65536) (now :: later) ->
  fst (Write data now later) = Returned (n, None) ->
  n = len data /\
  concat (accepted_chunks (snd (Write data now later))) = data /\
  accepted_bytes (snd (Write data now later)) = n.
Proof.
  intros Hcaps Hn. unfold Write in *. rewrite fst_after in Hn.
  destruct (Write_loop_counts_right later data 0 now Hcaps n Hn)
    as [Hcount Hchunks].
  unfold accepted_bytes. rewrite snd_after. cbn [app accepted_chunks].
  rewrite Hchunks. repeat split; lia.
Qed.

(** C4. The count is lost when a flag stops the loop.  A first pass hands a
    full send buffer of bytes (fewer than 65536) to the engine, which takes
    them; the writer waits; on the next pass [localClosed] or [aborting] is
    set.  [Write] then returns zero with the error, though the engine took
    the bytes of the first pass. *)
Theorem Write_count_lost (data : bytes) (now next : pass)
    (later : list pass) :
  0 < snd_buf (pcb (seen now)) < len data ->
  snd_buf (pcb (seen now)) < 65536 ->
  localClosed (seen now) = false ->
  aborting (seen now) = false ->
  tcp_write_ret now = ERR_OK ->
  localClosed (seen next) = true \/ aborting (seen next) = true ->
  (exists m, fst (Write data now (next :: later)) = Returned (0, Some m)) /\
  accepted_bytes (snd (Write data now (next :: later)))
    = snd_buf (pcb (seen now)).
Proof.
  intros Hcap Hu16 Hopen Hnoabort Hret Hflag.
  set (cap := snd_buf (pcb (seen now))) in *.
  set (chunk := firstn (Z.to_nat cap) data).
  assert (Hchunk : len chunk = cap) by (apply len_firstn; lia).
  assert (Hrest : len (skipn (Z.to_nat cap) data) = len data - cap).
  { unfold len. rewrite length_skipn. unfold len in Hcap. lia. }
  assert (Hne : chunk <> []%list) by (apply len_pos_iff; lia).
  assert (Hrun : exists m,
    Write data now (next :: later) =
      (Returned (0, Some m),
       [canWrite_L_Lock (connKey (seen now)); lwipMutex_Lock;
        Lwip (tcp_write (pcb (seen now)) chunk (u16_t (len chunk)));
        Lwip (tcp_output (pcb (seen now)));
        lwipMutex_Unlock; canWrite_Wait (connKey (seen now))]%list)).
  { destruct (Write_pass_flag
                (fun d t =>
                   match later with
                   | []%list => (Waiting, []%list)
                   | (next0 :: later')%list => Write_loop d t next0 later'
                   end)
                (skipn (Z.to_nat cap) data) (0 + cap) next)
      as (m & Hstop); [lia | exact Hflag |].
    exists m. unfold Write. rewrite Write_loop_unfold. unfold Write_pass at 1.
    destruct (Z.gtb_spec (len data) 0); [|lia].
    unfold isLocalClosed, isAborting. rewrite Hopen, Hnoabort.
    fold cap. destruct (Z.gtb_spec (len data) cap); [|lia].
    destruct (Z.gtb_spec cap 0); [|lia].
    fold chunk. rewrite Hret, (tcpWrite_ok _ _ Hne).
    rewrite Hchunk, Hrest.
    destruct (Z.eqb_spec (len data - cap) 0); [lia|].
    rewrite Write_loop_unfold, Hstop. reflexivity. }
  destruct Hrun as (m & ->). split; [eauto|].
  unfold accepted_bytes. cbn [snd accepted_chunks concat].
  rewrite firstn_u16_len by lia. rewrite app_nil_r. exact Hchunk.
Qed.

End WriteLoopProperties.

(** C6, as stated, fails on an empty write: the connection is closed by the
    local side, yet [Write] returns no error. *)
Lemma Write_nothing_after_localClosed_no_error :
  localClosed (seen (sample_pass 1500 true false 0)) = true /\
  fst (Write (E:=lwip2) []%list (sample_pass 1500 true false 0) []%list)
    = Returned (0, None).
Proof. split; reflexivity. Qed.

Lemma Write_after_localClosed_witness :
  Write (E:=lwip2) (zeros 3) (sample_pass 1500 true false 0) []%list =
    (Returned
       (0, Some "connection 10.0.0.2:50000->10.0.0.1:443 was closed by local"),
     [canWrite_L_Lock 42]%list).
Proof.
  apply (Write_after_localClosed (E:=lwip2) (zeros 3)
           (sample_pass 1500 true false 0) []%list).
  - simpl. discriminate.
  - reflexivity.
Defined.

Lemma Write_count_lost_witness :
  (exists m,
     fst (Write (E:=lwip2) (zeros 10) (sample_pass 4 false false 0)
            [sample_pass 100 true false 0]%list) = Returned (0, Some m)) /\
  accepted_bytes
    (snd (Write (E:=lwip2) (zeros 10) (sample_pass 4 false false 0)
            [sample_pass 100 true false 0]%list)) = 4.
Proof.
  apply (Write_count_lost (E:=lwip2) (zeros 10) (sample_pass 4 false false 0)
           (sample_pass 100 true false 0) []%list).
  - simpl. unfold len. simpl. lia.
  - simpl. lia.
  - reflexivity.
  - reflexivity.
  - reflexivity.
  - left. reflexivity.
Defined.

(** ** The callbacks *)

Lemma add_log_add_log (w : world) (evs evs' : list event) :
  add_log (add_log w evs) evs' = add_log w (evs ++ evs')%list.
Proof. unfold add_log. simpl. now rewrite <- app_assoc. Qed.

Lemma bind_run {A B} (m : M A) (f : A -> M B) (w : world) :
  (m ≫= f) w = f (fst (m w)) (snd (m w)).
Proof. unfold mbind, M_bind. now destruct (m w). Qed.

Lemma didReceive_calls_app (l l' : list event) :
  didReceive_calls (l ++ l') = (didReceive_calls l ++ didReceive_calls l')%list.
Proof.
  induction l as [|e l IH]; [reflexivity|].
  destruct e as [c|k h| | | | | | |]; simpl; try exact IH.
  destruct h; simpl; try exact IH. now rewrite IH.
Qed.

Lemma tcp_recved_calls_app (l l' : list event) :
  tcp_recved_calls (l ++ l') = (tcp_recved_calls l ++ tcp_recved_calls l')%list.
Proof.
  induction l as [|e l IH]; [reflexivity|].
  destruct e as [c|k h| | | | | | |]; simpl; try exact IH.
  destruct c; simpl; try exact IH. now rewrite IH.
Qed.

Lemma tcp_close_calls_app (l l' : list event) :
  tcp_close_calls (l ++ l') = (tcp_close_calls l ++ tcp_close_calls l')%list.
Proof.
  induction l as [|e l IH]; [reflexivity|].
  destruct e as [c|k h| | | | | | |]; simpl; try exact IH.
  destruct c; simpl; try exact IH. now rewrite IH.
Qed.

Lemma tcp_abort_calls_app (l l' : list event) :
  tcp_abort_calls (l ++ l') = (tcp_abort_calls l ++ tcp_abort_calls l')%list.
Proof.
  induction l as [|e l IH]; [reflexivity|].
  destruct e as [c|k h| | | | | | |]; simpl; try exact IH.
  destruct c; simpl; try exact IH. now rewrite IH.
Qed.

Section CallbackProperties.
Context {E : Engine}.

(** *** [Release] *)

Lemma Release_found (conn : tcpConn) (w : world) :
  is_Some (tcpConns w !! connKey conn) ->
  Release conn w = (tt, released conn w).
Proof.
  intros [c Hc]. unfold Release. rewrite bind_run.
  unfold tcpConns_Load. simpl. rewrite Hc. reflexivity.
Qed.

Lemma Release_absent (conn : tcpConn) (w : world) :
  tcpConns w !! connKey conn = None ->
  Release conn w = (tt, w).
Proof.
  intros Hc. unfold Release. rewrite bind_run.
  unfold tcpConns_Load. simpl. rewrite Hc. reflexivity.
Qed.

(** After [Release] the registry has no entry under the key. *)
Lemma Release_removes (conn : tcpConn) (w : world) :
  tcpConns (snd (Release conn w)) !! connKey conn = None.
Proof.
  destruct (tcpConns w !! connKey conn) eqn:Hc.
  - rewrite Release_found by eauto. simpl. apply lookup_delete_eq.
  - rewrite Release_absent by exact Hc. exact Hc.
Qed.

(** A second [Release] finds nothing to do: the slot is freed once. *)
Lemma Release_twice (conn : tcpConn) (w : world) :
  Release conn (snd (Release conn w)) = (tt, snd (Release conn w)).
Proof. apply Release_absent, Release_removes. Qed.

Lemma Release_log (conn : tcpConn) (w : world) :
  log (snd (Release conn w)) = log w.
Proof.
  destruct (tcpConns w !! connKey conn) eqn:Hc.
  - rewrite Release_found by eauto. reflexivity.
  - rewrite Release_absent by exact Hc. reflexivity.
Qed.

Lemma Release_add_log (conn : tcpConn) (w : world) (evs : list event) :
  snd (Release conn (add_log w evs)) = add_log (snd (Release conn w)) evs.
Proof.
  destruct (tcpConns w !! connKey conn) eqn:Hc.
  - rewrite !Release_found by (simpl; eauto). reflexivity.
  - rewrite !Release_absent by (simpl; exact Hc). reflexivity.
Qed.

(** *** [closeInternal], [abortInternal] and [CheckState] *)

Lemma closeInternal_world (conn : tcpConn) (close_ret : Z) (w : world) :
  snd (closeInternal conn close_ret w) =
    add_log (snd (Release conn w)) (close_events conn).
Proof.
  unfold closeInternal. rewrite !bind_run. cbn [emit fst snd].
  rewrite !add_log_add_log, Release_add_log, add_log_add_log.
  destruct (close_ret =? ERR_OK); reflexivity.
Qed.

Lemma abortInternal_world (conn : tcpConn) (w : world) :
  abortInternal conn w =
    (tt, add_log (snd (Release conn w)) [Lwip (tcp_abort (pcb conn))]%list).
Proof.
  unfold abortInternal. rewrite bind_run. reflexivity.
Qed.

(** While [localClosed] is not set, [CheckState] wakes the writers and
    answers "ok"; it looks at no other flag. *)
Lemma CheckState_not_localClosed (conn : tcpConn) (close_ret : Z)
    (w : world) :
  localClosed conn = false ->
  CheckState conn close_ret w =
    (LWIP_ERR_OK, add_log w [canWrite_Broadcast (connKey conn)]%list).
Proof.
  intros Hopen. unfold CheckState, isLocalClosed. rewrite Hopen. reflexivity.
Qed.

(** With [localClosed] set, [CheckState] runs the graceful release, and the
    forced one after it if [aborting] is set as well. *)
Lemma CheckState_localClosed (conn : tcpConn) (close_ret : Z) (w : world) :
  localClosed conn = true ->
  CheckState conn close_ret w =
    if aborting conn then
      (LWIP_ERR_ABRT,
       add_log (snd (Release conn w))
         (close_events conn ++ [Lwip (tcp_abort (pcb conn))])%list)
    else
      (LWIP_ERR_OK, add_log (snd (Release conn w)) (close_events conn)).
Proof.
  intros Hclosed. unfold CheckState, isLocalClosed, isAborting.
  rewrite Hclosed, orb_true_r. cbn [negb].
  rewrite !bind_run. cbn [mret M_ret fst snd].
  rewrite closeInternal_world.
  destruct (aborting conn).
  - rewrite bind_run, abortInternal_world. cbn [mret M_ret fst snd].
    rewrite Release_add_log, Release_twice, add_log_add_log. reflexivity.
  - reflexivity.
Qed.

Lemma Err_world (conn : tcpConn) (w : world) :
  Err conn w =
    (tt, add_log (snd (Release conn w))
           [cancel (connKey conn); Handler (connKey conn) HDidClose]%list).
Proof.
  unfold Err. rewrite !bind_run. unfold emit. cbn [fst snd].
  now rewrite add_log_add_log.
Qed.

(** Each of the three release paths leaves the registry without an entry
    under the key of the connection. *)
Lemma release_paths_unregister (conn : tcpConn) (close_ret : Z) (w : world) :
  tcpConns (snd (closeInternal conn close_ret w)) !! connKey conn = None /\
  tcpConns (snd (abortInternal conn w)) !! connKey conn = None /\
  tcpConns (snd (Err conn w)) !! connKey conn = None.
Proof.
  rewrite closeInternal_world, abortInternal_world, Err_world.
  cbn [snd add_log tcpConns]. auto using Release_removes.
Qed.

(** [LocalDidClose] sets [localClosed] before it reaches [CheckState], so
    on this path the early return is never taken. *)
Lemma LocalDidClose_world (conn : tcpConn) (close_ret : Z) (w : world) :
  LocalDidClose conn close_ret w =
    let conn' := set_localClosed conn in
    let (r, w') :=
      CheckState conn' close_ret
        (add_log w [Handler (connKey conn) HLocalDidClose;
                    canWrite_Broadcast (connKey conn)]%list) in
    ((conn', r), w').
Proof.
  unfold LocalDidClose, setLocalClosed. rewrite !bind_run.
  unfold emit. cbn [mret M_ret fst snd]. rewrite add_log_add_log.
  cbn [app set_localClosed connKey].
  now destruct (CheckState _ _ _).
Qed.

(** C1. While [localClosed] is not set, a set [aborting] flag changes
    nothing: [CheckState], reached directly, from [Poll] or from [Sent],
    answers "ok", leaves the registry and the slots as they are and makes no
    [tcp_abort]. *)
Theorem CheckState_ignores_abort (conn : tcpConn) (close_ret n : Z)
    (w : world) :
  aborting conn = true ->
  localClosed conn = false ->
  CheckState conn close_ret w =
    (LWIP_ERR_OK, add_log w [canWrite_Broadcast (connKey conn)]%list) /\
  Poll conn close_ret w =
    (LWIP_ERR_OK, add_log w [canWrite_Broadcast (connKey conn)]%list) /\
  Sent conn n close_ret w =
    (LWIP_ERR_OK,
     add_log w [Handler (connKey conn) (HDidSend n);
                canWrite_Broadcast (connKey conn)]%list) /\
  tcp_abort_calls (log (snd (CheckState conn close_ret w)))
    = tcp_abort_calls (log w) /\
  tcpConns (snd (CheckState conn close_ret w)) = tcpConns w.
Proof.
  intros _ Hopen.
  assert (H := CheckState_not_localClosed conn close_ret w Hopen).
  repeat split.
  - exact H.
  - exact H.
  - unfold Sent. rewrite bind_run. cbn [emit fst snd].
    rewrite CheckState_not_localClosed by exact Hopen.
    now rewrite add_log_add_log.
  - rewrite H. simpl. rewrite tcp_abort_calls_app. simpl.
    now rewrite app_nil_r.
  - now rewrite H.
Qed.

(** With [localClosed] set as well, the abort is carried out: [tcp_abort]
    is made and the answer is "aborted". *)
Lemma CheckState_abort_after_localClosed (conn : tcpConn) (close_ret : Z)
    (w : world) :
  aborting conn = true ->
  localClosed conn = true ->
  fst (CheckState conn close_ret w) = LWIP_ERR_ABRT /\
  In (Lwip (tcp_abort (pcb conn))) (log (snd (CheckState conn close_ret w))).
Proof.
  intros Habort Hclosed.
  rewrite CheckState_localClosed by exact Hclosed. rewrite Habort.
  split; [reflexivity|]. cbn [fst snd add_log log].
  rewrite !in_app_iff. right. right. now left.
Qed.

(** Through [LocalDidClose] a pending abort is always carried out. *)
Lemma LocalDidClose_carries_out_abort (conn : tcpConn) (close_ret : Z)
    (w : world) :
  aborting conn = true ->
  snd (fst (LocalDidClose conn close_ret w)) = LWIP_ERR_ABRT.
Proof.
  intros Habort. rewrite LocalDidClose_world. cbn zeta.
  rewrite CheckState_localClosed by reflexivity.
  cbn [set_localClosed aborting]. now rewrite Habort.
Qed.

(** A callback on a connection whose [localClosed] is not set only adds
    events that are neither [tcp_close] nor [tcp_abort]. *)
Lemma run_callback_not_localClosed (conn : tcpConn) (close_ret : Z)
    (cb : callback) (w : world) :
  localClosed conn = false ->
  exists evs,
    run_callback conn close_ret cb w = (LWIP_ERR_OK, add_log w evs) /\
    tcp_close_calls evs = []%list /\ tcp_abort_calls evs = []%list.
Proof.
  intros Hopen. destruct cb as [n|]; simpl.
  - exists [Handler (connKey conn) (HDidSend n);
            canWrite_Broadcast (connKey conn)]%list.
    unfold Sent. rewrite bind_run. cbn [emit fst snd].
    rewrite CheckState_not_localClosed by exact Hopen.
    now rewrite add_log_add_log.
  - exists [canWrite_Broadcast (connKey conn)]%list.
    unfold Poll. now rewrite CheckState_not_localClosed by exact Hopen.
Qed.

Lemma add_log_nil (w : world) : add_log w []%list = w.
Proof. destruct w. unfold add_log. simpl. now rewrite app_nil_r. Qed.

Lemma run_callbacks_not_localClosed (conn : tcpConn) (close_ret : Z)
    (cbs : list callback) :
  localClosed conn = false ->
  forall w, exists evs,
    run_callbacks conn close_ret cbs w =
      (map (fun _ => LWIP_ERR_OK) cbs, add_log w evs) /\
    tcp_close_calls evs = []%list /\ tcp_abort_calls evs = []%list.
Proof.
  intros Hopen. induction cbs as [|cb cbs IH]; intros w.
  - exists []%list. simpl. unfold mret, M_ret. now rewrite add_log_nil.
  - destruct (run_callback_not_localClosed conn close_ret cb w Hopen)
      as (evs1 & H1 & Hc1 & Ha1).
    destruct (IH (add_log w evs1)) as (evs2 & H2 & Hc2 & Ha2).
    exists (evs1 ++ evs2)%list. simpl. rewrite bind_run, H1.
    cbn [fst snd]. rewrite bind_run, H2. cbn [fst snd mret M_ret].
    rewrite add_log_add_log, tcp_close_calls_app, tcp_abort_calls_app.
    rewrite Hc1, Hc2, Ha1, Ha2. auto.
Qed.

(** C2. After [Close], with [localClosed] not set, no sequence of
    acknowledgement and poll callbacks brings the graceful release: every
    one of them answers "ok", [tcp_close] is not called, and the entry and
    the slot of the connection stay where they are. *)
Theorem close_request_not_released (conn : tcpConn) (close_ret : Z)
    (cbs : list callback) (w : world) :
  localClosed conn = false ->
  let closed := fst (Close conn w) in
  let after_cbs := run_callbacks closed close_ret cbs (snd (Close conn w)) in
  closing closed = true /\
  fst after_cbs = map (fun _ => LWIP_ERR_OK) cbs /\
  tcp_close_calls (log (snd after_cbs)) = tcp_close_calls (log w) /\
  tcpConns (snd after_cbs) = tcpConns w /\
  connKeyArgs (snd after_cbs) = connKeyArgs w.
Proof.
  intros Hopen closed after_cbs.
  destruct (run_callbacks_not_localClosed closed close_ret cbs Hopen
              (snd (Close conn w))) as (evs & Hrun & Hc & _).
  subst after_cbs. rewrite Hrun. simpl.
  rewrite tcp_close_calls_app, Hc, app_nil_r. auto.
Qed.

(** C3. With [localClosed] and [aborting] both set, one call of
    [CheckState] makes [tcp_close] and then [tcp_abort] on the same pcb,
    and answers "aborted". *)
Theorem CheckState_close_and_abort (conn : tcpConn) (close_ret : Z)
    (w : world) :
  localClosed conn = true ->
  aborting conn = true ->
  fst (CheckState conn close_ret w) = LWIP_ERR_ABRT /\
  tcp_close_calls (log (snd (CheckState conn close_ret w)))
    = (tcp_close_calls (log w) ++ [pcb conn])%list /\
  tcp_abort_calls (log (snd (CheckState conn close_ret w)))
    = (tcp_abort_calls (log w) ++ [pcb conn])%list.
Proof.
  intros Hclosed Habort.
  rewrite CheckState_localClosed by exact Hclosed. rewrite Habort.
  cbn [fst snd add_log log].
  rewrite Release_log, tcp_close_calls_app, tcp_abort_calls_app.
  repeat split.
Qed.

End CallbackProperties.

(** Both flags set through the methods themselves, [Abort] and then the
    local-close notification: [tcp_close] and [tcp_abort] are both made on
    the pcb, while the entry and the slot are released once. *)
Example Abort_then_LocalDidClose :
  let (conn, w) := Abort (sample_conn 0 false false false) sample_world in
  let (r, w') := LocalDidClose (E:=lwip2) conn 0 w in
  snd r = LWIP_ERR_ABRT /\
  tcp_close_calls (log w') = [sample_pcb 0]%list /\
  tcp_abort_calls (log w') = [sample_pcb 0]%list /\
  tcpConns w' !! 42 = None /\
  connKeyArgs w' !! 7%N = None.
Proof. vm_compute. repeat split. Qed.

Lemma CheckState_ignores_abort_witness :
  Poll (E:=lwip2) (sample_conn 0 false false true) 0 sample_world =
    (LWIP_ERR_OK, add_log sample_world [canWrite_Broadcast 42]%list).
Proof.
  apply (CheckState_ignores_abort (E:=lwip2) (sample_conn 0 false false true)
           0 0 sample_world); reflexivity.
Defined.

Lemma close_request_not_released_witness :
  tcp_close_calls
    (log (snd (run_callbacks (E:=lwip2)
                 (fst (Close (sample_conn 0 false false false) sample_world))
                 0 [OnSent 200; OnPoll; OnPoll]%list
                 (snd (Close (sample_conn 0 false false false)
                         sample_world)))))
    = []%list.
Proof.
  apply (close_request_not_released (E:=lwip2)
           (sample_conn 0 false false false) 0
           [OnSent 200; OnPoll; OnPoll]%list sample_world).
  reflexivity.
Defined.

Lemma CheckState_close_and_abort_witness :
  tcp_close_calls
    (log (snd (CheckState (E:=lwip2) (sample_conn 0 false true true) 0
                 sample_world))) = [sample_pcb 0]%list /\
  tcp_abort_calls
    (log (snd (CheckState (E:=lwip2) (sample_conn 0 false true true) 0
                 sample_world))) = [sample_pcb 0]%list.
Proof.
  apply (CheckState_close_and_abort (E:=lwip2)
           (sample_conn 0 false true true) 0 sample_world); reflexivity.
Defined.

(** ** [Receive] *)

(** A connection that is closing or aborting turns the buffer away; the
    world, and with it the log, stays as it is. *)
Lemma Receive_rejected (conn : tcpConn) (data : bytes) (w : world) :
  closing conn = true \/ aborting conn = true ->
  Receive conn data w =
    (Some (if closing conn then msg_closed_by_remote conn
           else msg_aborting conn), w).
Proof.
  intros Hflag. unfold Receive, isClosing, isAborting.
  destruct (closing conn); [reflexivity|].
  destruct Hflag as [Hc | ->]; [discriminate | reflexivity].
Qed.

(** Otherwise the buffer goes to the handler, and the engine is told the
    count when the handler has no complaint. *)
Lemma Receive_forwarded (conn : tcpConn) (data : bytes) (w : world) :
  closing conn = false ->
  aborting conn = false ->
  Receive conn data w =
    match DidReceive (handler conn) (log w ++ [lwipMutex_Unlock]) data with
    | Some e =>
        (Some (msg_write_proxy e),
         add_log w [lwipMutex_Unlock;
                    Handler (connKey conn) (HDidReceive data);
                    lwipMutex_Lock]%list)
    | None => (None, add_log w (receive_events conn data))
    end.
Proof.
  intros Hc Ha. unfold Receive, isClosing, isAborting. rewrite Hc, Ha.
  rewrite !bind_run. unfold handler_DidReceive.
  cbn [emit fst snd add_log log].
  destruct (DidReceive (handler conn) (log w ++ [lwipMutex_Unlock]) data).
  - cbn [mret M_ret]. now rewrite !add_log_add_log.
  - rewrite bind_run. cbn [emit mret M_ret fst snd].
    now rewrite !add_log_add_log.
Qed.

(** C8, as amended. [Receive] on a closing connection returns the
    closed-by-remote error and on an aborting one the aborting error, two
    different texts, and leaves the world untouched, so the handler is not
    called.  Otherwise the handler gets the buffer once; if it answers
    without error [Receive] returns no error and [tcp_recved] is called once
    with the length of the buffer taken as a [u16_t], that is modulo 65536,
    which is the length itself below 65536 bytes; if it answers an error
    [Receive] returns it wrapped and [tcp_recved] is not called.  Neither
    way is the registry or a slot touched, and [Receive] writes no flag: it
    hands back no connection. *)
Theorem Receive_spec (conn : tcpConn) (data : bytes) (w : world) :
  (closing conn = true ->
     Receive conn data w = (Some (msg_closed_by_remote conn), w)) /\
  (closing conn = false -> aborting conn = true ->
     Receive conn data w = (Some (msg_aborting conn), w)) /\
  msg_closed_by_remote conn <> msg_aborting conn /\
  (closing conn = false -> aborting conn = false ->
     let r := Receive conn data w in
     let answer :=
       DidReceive (handler conn) (log w ++ [lwipMutex_Unlock]) data in
     didReceive_calls (log (snd r)) = (didReceive_calls (log w) ++ [data])%list /\
     (answer = None ->
        fst r = None /\
        tcp_recved_calls (log (snd r))
          = (tcp_recved_calls (log w) ++ [len data mod 65536])%list /\
        (len data < 65536 ->
           tcp_recved_calls (log (snd r))
             = (tcp_recved_calls (log w) ++ [len data])%list)) /\
     (forall e, answer = Some e ->
        fst r = Some (msg_write_proxy e) /\
        tcp_recved_calls (log (snd r)) = tcp_recved_calls (log w)) /\
     tcpConns (snd r) = tcpConns w /\
     connKeyArgs (snd r) = connKeyArgs w).
Proof.
  split; [|split; [|split]].
  - intros Hc. rewrite Receive_rejected by auto. now rewrite Hc.
  - intros Hc Ha. rewrite Receive_rejected by auto. now rewrite Hc.
  - apply msg_closed_by_remote_not_aborting.
  - intros Hc Ha r answer. subst r.
    rewrite (Receive_forwarded conn data w Hc Ha). fold answer.
    destruct answer as [e|]; cbn [fst snd add_log log receive_events];
      rewrite didReceive_calls_app, tcp_recved_calls_app; simpl.
    + split; [reflexivity|]. split; [discriminate|].
      split; [|split; reflexivity].
      intros e' [= <-]. split; [reflexivity | apply app_nil_r].
    + split; [reflexivity|]. split; [|split; [discriminate|split; reflexivity]].
      intros _. split; [reflexivity|]. split; [reflexivity|].
      intros Hsmall. rewrite <- (u16_t_small (len data)) at 2;
        [reflexivity | split; [apply len_nonneg | exact Hsmall]].
Qed.

Lemma Receive_all_accepted (conn : tcpConn) (bufs : list bytes) :
  closing conn = false ->
  aborting conn = false ->
  (forall l d, DidReceive (handler conn) l d = None) ->
  forall w,
    Receive_all conn bufs w =
      (map (fun _ => None) bufs,
       add_log w (flat_map (receive_events conn) bufs)).
Proof.
  intros Hc Ha Hok. induction bufs as [|b bufs IH]; intros w.
  - simpl. unfold mret, M_ret. now rewrite add_log_nil.
  - cbn [Receive_all]. rewrite bind_run, (Receive_forwarded conn b w Hc Ha).
    rewrite Hok. cbn [fst snd]. rewrite bind_run, IH.
    cbn [fst snd mret M_ret map flat_map]. now rewrite add_log_add_log.
Qed.

(** C5, as amended. Three buffers of 100, 50 and 0 bytes, a connection that
    is neither closing nor aborting and a handler that always succeeds: the
    handler is given all three buffers, 150 bytes in all, and [tcp_recved]
    is called once for each of them, with 100, 50 and, for the empty one,
    0. *)
Theorem Receive_100_50_0 (conn : tcpConn) (b1 b2 b3 : bytes) (w : world) :
  closing conn = false ->
  aborting conn = false ->
  (forall l d, DidReceive (handler conn) l d = None) ->
  len b1 = 100 -> len b2 = 50 -> len b3 = 0 ->
  let r := Receive_all conn [b1; b2; b3]%list w in
  fst r = [None; None; None]%list /\
  didReceive_calls (log (snd r))
    = (didReceive_calls (log w) ++ [b1; b2; b3])%list /\
  len (concat [b1; b2; b3]%list) = 150 /\
  tcp_recved_calls (log (snd r))
    = (tcp_recved_calls (log w) ++ [100; 50; 0])%list.
Proof.
  intros Hc Ha Hok H1 H2 H3 r. subst r.
  rewrite (Receive_all_accepted conn _ Hc Ha Hok w).
  cbn [fst snd add_log log flat_map receive_events].
  rewrite didReceive_calls_app, tcp_recved_calls_app. simpl.
  rewrite H1, H2, H3. repeat split.
  unfold len in *. rewrite !length_app. simpl. lia.
Qed.

(** C8, as stated, fails on a buffer of 65536 bytes: the handler takes it,
    and the engine is told that 0 bytes were consumed. *)
Lemma Receive_65536_acknowledges_0 :
  len (zeros (Z.to_nat 65536)) = 65536 /\
  fst (Receive (sample_conn 0 false false false) (zeros (Z.to_nat 65536))
         sample_world) = None /\
  tcp_recved_calls
    (log (snd (Receive (sample_conn 0 false false false)
                 (zeros (Z.to_nat 65536)) sample_world))) = [0]%list.
Proof. vm_compute. repeat split. Qed.

Lemma Receive_spec_witness :
  Receive (sample_conn 0 true false false) (zeros 3) sample_world
    = (Some "connection 10.0.0.2:50000->10.0.0.1:443 was closed by remote",
       sample_world) /\
  Receive (sample_conn 0 false false true) (zeros 3) sample_world
    = (Some "connection 10.0.0.2:50000->10.0.0.1:443 is aborting",
       sample_world) /\
  tcp_recved_calls
    (log (snd (Receive (sample_conn 0 false false false)
                 (zeros 3) sample_world))) = [3]%list.
Proof.
  destruct (Receive_spec (sample_conn 0 true false false)
              (zeros 3) sample_world) as (H1 & _).
  destruct (Receive_spec (sample_conn 0 false false true)
              (zeros 3) sample_world) as (_ & H2 & _).
  destruct (Receive_spec (sample_conn 0 false false false)
              (zeros 3) sample_world) as (_ & _ & _ & H3).
  split; [apply H1; reflexivity|].
  split; [apply H2; reflexivity|].
  destruct (H3 eq_refl eq_refl) as (_ & H4 & _).
  destruct (H4 eq_refl) as (_ & _ & H5).
  apply H5. vm_compute. reflexivity.
Defined.

(** C5, as stated, fails: the handler is notified three times and the engine
    gets three acknowledgements, the last one for the empty buffer. *)
Lemma three_buffers_three_calls :
  length
    (didReceive_calls
       (log (snd (Receive_all (sample_conn 0 false false false)
                    [zeros 100; zeros 50; zeros 0]%list sample_world))))
    = 3%nat /\
  tcp_recved_calls
    (log (snd (Receive_all (sample_conn 0 false false false)
                 [zeros 100; zeros 50; zeros 0]%list sample_world)))
    = [100; 50; 0]%list.
Proof. vm_compute. split; reflexivity. Qed.

Lemma Receive_100_50_0_witness :
  tcp_recved_calls
    (log (snd (Receive_all (sample_conn 0 false false false)
                 [zeros 100; zeros 50; zeros 0]%list sample_world)))
    = [100; 50; 0]%list.
Proof.
  apply (Receive_100_50_0 (sample_conn 0 false false false)
           (zeros 100) (zeros 50) (zeros 0) sample_world);
    reflexivity.
Defined.

(** ** [NewTCPConnection] *)

Section CreationProperties.
Context {E : Engine}.

(** C10. With an acceptor registered, if [Connect] answers an error when
    [NewTCPConnection] calls it, [NewTCPConnection] returns that error and
    no connection, and leaves behind what it had set up: the registry holds
    the new connection under its key, the native-argument slot is still
    allocated and carries the key, and the log shows the callbacks installed
    and nothing taken back. *)
Theorem NewTCPConnection_connect_error (pcb0 : tcp_pcb)
    (handler0 : ConnectionHandler) (arg : N) (key : Z) (w : world)
    (e : string) :
  tcpConnectionHandler w = true ->
  Connect handler0
    (log w ++ install_events pcb0 arg (TCP_POLL_INTERVAL mod 256))
    (ParseTCPAddr (IPAddrNTOA (local_ip pcb0)) (u16_t (local_port pcb0)))
    = Some e ->
  let r := NewTCPConnection pcb0 handler0 arg key w in
  fst r = (None, Some e) /\
  (exists conn,
     tcpConns (snd r) !! key = Some conn /\
     pcb conn = pcb0 /\ connKey conn = key /\ connKeyArg conn = arg) /\
  connKeyArgs (snd r) !! arg = Some key /\
  log (snd r) =
    (log w ++ install_events pcb0 arg (TCP_POLL_INTERVAL mod 256)
       ++ [Handler key
             (HConnect (ParseTCPAddr (IPAddrNTOA (local_ip pcb0))
                          (u16_t (local_port pcb0))));
           lwipMutex_Lock])%list.
Proof.
  intros Hreg Hconnect r. subst r.
  unfold NewTCPConnection. rewrite !bind_run.
  cbn [NewConnKeyArg SetConnKeyVal fst snd tcpConnectionHandler].
  rewrite Hreg. cbn [negb].
  rewrite !bind_run. unfold handler_Connect, RemoteAddr.
  cbn [tcpConns_Store emit add_log fst snd log remoteAddr connKey handler
       tcpConns connKeyArgs tcpConnectionHandler].
  rewrite <- !app_assoc. cbn [app].
  unfold install_events in Hconnect. rewrite Hconnect.
  rewrite !add_log_add_log.
  cbn [mret M_ret fst snd tcpConns connKeyArgs log add_log app].
  split; [reflexivity|]. split; [|split].
  - eexists. split; [apply lookup_insert_eq|]. repeat split.
  - rewrite insert_insert_eq. apply lookup_insert_eq.
  - reflexivity.
Qed.

End CreationProperties.

Lemma NewTCPConnection_connect_error_witness :
  fst (NewTCPConnection (E:=lwip2) (sample_pcb 0) refusing 7 42 fresh_world)
    = (None, Some "dial failed") /\
  is_Some
    (tcpConns
       (snd (NewTCPConnection (E:=lwip2) (sample_pcb 0) refusing 7 42
               fresh_world)) !! 42) /\
  connKeyArgs
    (snd (NewTCPConnection (E:=lwip2) (sample_pcb 0) refusing 7 42
            fresh_world)) !! 7%N = Some 42.
Proof.
  destruct (NewTCPConnection_connect_error (E:=lwip2) (sample_pcb 0)
              refusing 7 42 fresh_world "dial failed")
    as (Hret & (conn & Hconn & _) & Hslot & _).
  - reflexivity.
  - reflexivity.
  - split; [exact Hret|]. split; [rewrite Hconn; eauto | exact Hslot].
Defined.

(** * Further properties *)

(** ** More on the loop of [Write] *)

Section WriteCases.
Context {E : Engine}.

(** Every pass goes one of the seven ways. *)
Lemma Write_pass_spec (wait : bytes -> Z -> run (Z * option string))
    (data : bytes) (totalWritten : Z) (now : pass) :
  Write_pass_case wait data totalWritten now
    (Write_pass wait data totalWritten now).
Proof.
  unfold Write_pass.
  destruct (Z.gtb_spec (len data) 0) as [Hlen|Hlen].
  2: { apply pass_over; [now apply len_zero_nil | reflexivity]. }
  assert (Hdata : data <> []%list) by now apply len_pos_iff.
  unfold isLocalClosed, isAborting.
  destruct (localClosed (seen now)) eqn:Hlc;
    [now apply pass_localClosed|].
  destruct (aborting (seen now)) eqn:Hab; [now apply pass_aborting|].
  set (cap := snd_buf (pcb (seen now))).
  destruct (Z.gtb_spec (len data) cap) as [Hbig|Hsmall].
  - (* the send buffer is the limit *)
    destruct (Z.gtb_spec cap 0) as [Hpos|Hnone].
    + assert (Hchunk : len (firstn (Z.to_nat cap) data) = cap)
        by (apply len_firstn; lia).
      assert (Hrest : len (skipn (Z.to_nat cap) data) = len data - cap).
      { unfold len. rewrite length_skipn. unfold len in Hbig. lia. }
      assert (Hne : firstn (Z.to_nat cap) data <> []%list)
        by (apply len_pos_iff; lia).
      destruct (firstn (Z.to_nat cap) data) as [|b chunk] eqn:Hfirst;
        [congruence|].
      unfold tcpWrite.
      destruct (Z.eqb_spec (tcp_write_ret now) ERR_OK) as [Hok|Hnok];
        [|destruct (Z.eqb_spec (tcp_write_ret now) ERR_MEM) as [Hmem|Hnmem]].
      * rewrite Hchunk, Hrest.
        destruct (Z.eqb_spec (len data - cap) 0); [lia|].
        eapply (pass_more _ _ _ _ _ (b :: chunk)
                  (skipn (Z.to_nat cap) data)); try assumption.
        -- rewrite <- Hfirst. apply firstn_skipn.
        -- apply len_pos_iff. lia.
        -- rewrite Hchunk. reflexivity.
      * rewrite Z.add_0_r. change (skipn (Z.to_nat 0) data) with data.
        destruct (Z.eqb_spec (len data) 0); [lia|].
        eapply (pass_idle _ _ _ _ _ _ Hdata Hlc Hab).
        -- right. exists (b :: chunk). repeat split; eauto.
        -- reflexivity.
      * rewrite Z.add_0_r.
        now eapply (pass_failed _ _ _ _ _ (b :: chunk)).
    + destruct (Z.eqb_spec (len data) 0); [lia|].
      eapply (pass_idle _ _ _ _ _ []%list Hdata Hlc Hab).
      * left. split; [exact Hnone | reflexivity].
      * reflexivity.
  - (* all of the data fits *)
    destruct (Z.gtb_spec (len data) 0); [|lia].
    assert (Hall : firstn (Z.to_nat (len data)) data = data).
    { unfold len. rewrite Nat2Z.id. apply firstn_all. }
    assert (Hnone : skipn (Z.to_nat (len data)) data = []%list).
    { unfold len. rewrite Nat2Z.id. apply skipn_all. }
    rewrite Hall. destruct data as [|b data]; [congruence|].
    unfold tcpWrite.
    destruct (Z.eqb_spec (tcp_write_ret now) ERR_OK) as [Hok|Hnok];
      [|destruct (Z.eqb_spec (tcp_write_ret now) ERR_MEM) as [Hmem|Hnmem]].
    + rewrite Hnone. change (len (@nil Byte.byte) =? 0) with true.
      now apply pass_last.
    + rewrite Z.add_0_r.
      change (skipn (Z.to_nat 0) (b :: data)) with (b :: data).
      destruct (Z.eqb_spec (len (b :: data)) 0); [lia|].
      eapply (pass_idle _ _ _ _ _ _ Hdata Hlc Hab).
      * right. exists (b :: data). repeat split; eauto. fold cap. lia.
      * reflexivity.
    + rewrite Z.add_0_r.
      eapply (pass_failed _ _ _ _ _ (b :: data)); try assumption;
        [fold cap; lia | reflexivity].
Qed.

End WriteCases.

Section WriteMore.
Context {E : Engine}.

Lemma len_cons_pos {A} (l : list A) : l <> []%list -> 1 <= len l.
Proof. intros H. apply len_pos_iff in H. lia. Qed.

(** When all of the data fits the send buffer and the engine takes it,
    [Write] is done in one pass: one [tcp_write] with all of the data, no
    wait, both locks released, the length returned. *)
Theorem Write_single_pass (data : bytes) (now : pass) (later : list pass) :
  data <> []%list ->
  localClosed (seen now) = false ->
  aborting (seen now) = false ->
  len data <= snd_buf (pcb (seen now)) ->
  tcp_write_ret now = ERR_OK ->
  Write data now later =
    (Returned (len data, None),
     [canWrite_L_Lock (connKey (seen now));
      lwipMutex_Lock;
      Lwip (tcp_write (pcb (seen now)) data (u16_t (len data)));
      Lwip (tcp_output (pcb (seen now)));
      lwipMutex_Unlock;
      canWrite_L_Unlock (connKey (seen now))]%list).
Proof.
  intros Hdata Hlc Hab Hfit Hok.
  assert (Hlen := len_cons_pos data Hdata).
  unfold Write. rewrite Write_loop_unfold.
  destruct (Write_pass_spec
              (fun d t =>
                 match later with
                 | []%list => (Waiting, []%list)
                 | (next :: later')%list => Write_loop d t next later'
                 end) data 0 now)
    as [H0 _ | _ H0 _ | _ _ H0 _ | tried _ _ _ Hidle _ | _ _ _ _ _ Hr
        | chunk rest _ _ Hsplit Hchunk Hrest Hcap _ _ | chunk _ _ _ _ Hnok _ _];
    try congruence.
  - destruct Hidle as [[Hnone _] | (c & _ & Hnok & _)]; [lia | congruence].
  - rewrite Hr. reflexivity.
  - apply len_cons_pos in Hrest. rewrite <- Hsplit, len_app in Hfit. lia.
Qed.

(** A run of the loop through passes on which the engine takes what it is
    given comes to an end with everything counted, if there are as many
    passes as bytes. *)
Lemma Write_loop_completes (later : list pass) :
  forall (data : bytes) (totalWritten : Z) (now : pass),
    Forall pass_open (now :: later) ->
    len data <= Z.of_nat (length (now :: later)) ->
    exists l,
      Write_loop data totalWritten now later =
        (Returned (totalWritten + len data, None), l).
Proof.
  induction later as [|next later IH]; intros data totalWritten now Hopen Hn;
    apply Forall_cons in Hopen as [(Hlc & Hab & Hcap & Hok) Hlater];
    rewrite Write_loop_unfold;
    match goal with
    | |- context [Write_pass ?w data totalWritten now] =>
        destruct (Write_pass_spec w data totalWritten now)
          as [H0 Hr | _ H0 _ | _ _ H0 _ | tried _ _ _ Hidle _ | _ _ _ _ _ Hr
              | chunk rest _ _ Hsplit Hchunk Hrest Hlen _ Hr
              | chunk _ _ _ _ Hnok _ _]
    end; try congruence;
    try (destruct Hidle as [[Hnone _] | (c & _ & Hnok & _)];
         [lia | congruence]);
    try (rewrite Hr; eauto; fail).
  - subst data. rewrite Hr. change (len (@nil Byte.byte)) with 0.
    rewrite Z.add_0_r. eauto.
  - apply len_cons_pos in Hchunk, Hrest.
    rewrite <- Hsplit, len_app in Hn. simpl in Hn. lia.
  - subst data. rewrite Hr. change (len (@nil Byte.byte)) with 0.
    rewrite Z.add_0_r. eauto.
  - apply len_cons_pos in Hchunk.
    destruct (IH rest (totalWritten + len chunk) next Hlater) as (l & Hl).
    { rewrite <- Hsplit, len_app in Hn.
      cbn [length] in *. lia. }
    rewrite Hr, Hl, <- Hsplit, len_app, Z.add_assoc. unfold after. eauto.
Qed.

(** [Write] returns: through passes on which no flag is set, the send buffer
    has room and the engine takes what it is given, a [Write] that is given
    as many passes as it has bytes returns the length of the data and no
    error. *)
Theorem Write_completes (data : bytes) (now : pass) (later : list pass) :
  Forall pass_open (now :: later) ->
  len data <= Z.of_nat (length (now :: later)) ->
  fst (Write data now later) = Returned (len data, None).
Proof.
  intros Hopen Hn.
  destruct (Write_loop_completes later data 0 now Hopen Hn) as (l & Hl).
  unfold Write. rewrite Hl. reflexivity.
Qed.

End WriteMore.

Lemma Write_single_pass_witness :
  fst (Write (E:=lwip2) (zeros 3) (sample_pass 1500 false false 0) []%list)
    = Returned (3, None).
Proof.
  rewrite (Write_single_pass (E:=lwip2) (zeros 3)
             (sample_pass 1500 false false 0) []%list).
  - reflexivity.
  - simpl. discriminate.
  - reflexivity.
  - reflexivity.
  - unfold len. simpl. lia.
  - reflexivity.
Defined.

Lemma Write_completes_witness :
  fst (Write (E:=lwip2) (zeros 5) (sample_pass 2 false false 0)
         [sample_pass 2 false false 0; sample_pass 1 false false 0;
          sample_pass 1 false false 0; sample_pass 9 false false 0]%list)
    = Returned (5, None).
Proof.
  apply (Write_completes (E:=lwip2) (zeros 5) (sample_pass 2 false false 0)
           [sample_pass 2 false false 0; sample_pass 1 false false 0;
            sample_pass 1 false false 0; sample_pass 9 false false 0]%list).
  - repeat (apply Forall_cons; split;
            [unfold pass_open; simpl; repeat split; lia|]).
    apply Forall_nil. exact I.
  - unfold len. simpl. lia.
Defined.

Section WriteReturns.
Context {E : Engine}.

(** A pass on which nothing is taken, because the send buffer has no room
    or because the engine answers [ERR_MEM], costs the writer one wait and
    nothing else: the call returns what it returns without that pass, and
    the engine has taken the same bytes. *)
Theorem Write_idle_pass (data : bytes) (now next : pass)
    (later : list pass) :
  data <> []%list ->
  localClosed (seen now) = false ->
  aborting (seen now) = false ->
  snd_buf (pcb (seen now)) <= 0 \/
    (tcp_write_ret now = ERR_MEM /\ ERR_MEM <> ERR_OK) ->
  fst (Write data now (next :: later)) = fst (Write data next later) /\
  accepted_chunks (snd (Write data now (next :: later)))
    = accepted_chunks (snd (Write data next later)) /\
  canWrite_waits (snd (Write data now (next :: later)))
    = S (canWrite_waits (snd (Write data next later))).
Proof.
  intros Hdata Hlc Hab Hidle.
  assert (Hlen := len_cons_pos data Hdata).
  unfold Write. rewrite (Write_loop_unfold data 0 now).
  destruct (Write_pass_spec
              (fun d t => Write_loop d t next later) data 0 now)
    as [H0 _ | _ H0 _ | _ _ H0 _ | tried _ _ _ Htried Hr
        | _ _ _ Hfit Hok _
        | chunk rest _ _ Hsplit Hchunk Hrest Hcap Hok _
        | chunk _ _ _ Hpos Hnok Hnmem _];
    try congruence.
  - rewrite Hr.
    destruct Htried as [[_ ->] | (c & _ & _ & _ & ->)]; repeat split.
  - destruct Hidle as [Hnone | [Hmem Hne]]; [lia | congruence].
  - apply len_cons_pos in Hchunk.
    destruct Hidle as [Hnone | [Hmem Hne]]; [lia | congruence].
  - destruct Hidle as [Hnone | [Hmem Hne]]; [lia | congruence].
Qed.

(** The wrong texts are told apart from a [tcp_write] failure at the first
    letter. *)
Lemma msg_closed_by_local_not_tcp_write (conn : tcpConn) (code : Z) :
  msg_closed_by_local conn <> msg_tcp_write code.
Proof. unfold msg_closed_by_local, msg_tcp_write. simpl. discriminate. Qed.

Lemma msg_aborting_not_tcp_write (conn : tcpConn) (code : Z) :
  msg_aborting conn <> msg_tcp_write code.
Proof. unfold msg_aborting, msg_tcp_write. simpl. discriminate. Qed.

(** How the loop can return, and what has become of [canWrite.L] then. *)
Lemma Write_loop_returns (later : list pass) :
  forall (data : bytes) (totalWritten : Z) (now : pass) (n : Z)
         (err : option string),
    fst (Write_loop data totalWritten now later) = Returned (n, err) ->
    (canWrite_L_unlocks (snd (Write_loop data totalWritten now later)) = 1%nat
     /\ (err = None \/ exists code, err = Some (msg_tcp_write code))) \/
    (canWrite_L_unlocks (snd (Write_loop data totalWritten now later)) = 0%nat
     /\ n = 0 /\
     exists p, In p (now :: later) /\
       (localClosed (seen p) = true /\
          err = Some (msg_closed_by_local (seen p)) \/
        aborting (seen p) = true /\
          err = Some (msg_aborting (seen p)))).
Proof.
  induction later as [|next later IH]; intros data totalWritten now n err;
    rewrite Write_loop_unfold;
    match goal with
    | |- context [Write_pass ?w data totalWritten now] =>
        destruct (Write_pass_spec w data totalWritten now)
          as [_ Hr | _ Hlc Hr | _ _ Hab Hr | tried _ _ _ Htried Hr
              | _ _ _ _ _ Hr
              | chunk rest _ _ _ _ _ _ _ Hr
              | chunk _ _ _ _ _ _ Hr]
    end; rewrite Hr; cbn [fst snd after];
    try (intros [= <- <-]; cbn; eauto 10 using in_eq; fail).
  - intros H. destruct Htried as [[_ ->] | (c & _ & _ & _ & ->)];
      cbn [app canWrite_L_unlocks];
      (destruct (IH data totalWritten next n err H)
         as [? | (? & ? & p & Hin & Hp)];
       [left; assumption | right; eauto 10 using in_cons]).
  - intros H. cbn [app canWrite_L_unlocks].
    destruct (IH rest (totalWritten + len chunk) next n err H)
      as [? | (? & ? & p & Hin & Hp)];
      [left; assumption | right; eauto 10 using in_cons].
Qed.

(** [Write] returns either with [canWrite.L] released once, and then with no
    error or with the failure of [tcp_write], or with [canWrite.L] still
    held, and then because a pass saw [localClosed] or [aborting], with that
    error and the count zero. *)
Theorem Write_returns (data : bytes) (now : pass) (later : list pass)
    (n : Z) (err : option string) :
  fst (Write data now later) = Returned (n, err) ->
  (canWrite_L_unlocks (snd (Write data now later)) = 1%nat /\
   (err = None \/ exists code, err = Some (msg_tcp_write code))) \/
  (canWrite_L_unlocks (snd (Write data now later)) = 0%nat /\ n = 0 /\
   exists p, In p (now :: later) /\
     (localClosed (seen p) = true /\
        err = Some (msg_closed_by_local (seen p)) \/
      aborting (seen p) = true /\
        err = Some (msg_aborting (seen p)))).
Proof.
  unfold Write. rewrite fst_after, snd_after. cbn [app canWrite_L_unlocks].
  apply Write_loop_returns.
Qed.

End WriteReturns.

Lemma Write_idle_pass_witness :
  fst (Write (E:=lwip2) (zeros 3) (sample_pass 1500 false false (-1))
         [sample_pass 1500 false false 0]%list)
    = fst (Write (E:=lwip2) (zeros 3) (sample_pass 1500 false false 0)
             []%list).
Proof.
  apply (Write_idle_pass (E:=lwip2) (zeros 3)
           (sample_pass 1500 false false (-1))
           (sample_pass 1500 false false 0) []%list).
  - simpl. discriminate.
  - reflexivity.
  - reflexivity.
  - right. split; [reflexivity | simpl; lia].
Defined.

Lemma Write_returns_witness :
  canWrite_L_unlocks
    (snd (Write (E:=lwip2) (zeros 10) (sample_pass 4 false false 0)
            [sample_pass 100 false true 0]%list)) = 0%nat.
Proof.
  destruct (Write_returns (E:=lwip2) (zeros 10) (sample_pass 4 false false 0)
              [sample_pass 100 false true 0]%list 0
              (Some "connection 10.0.0.2:50000->10.0.0.1:443 is aborting"))
    as [[_ [H | (code & H)]] | [H _]].
  - reflexivity.
  - discriminate H.
  - exfalso. revert H. unfold msg_tcp_write. simpl. discriminate.
  - exact H.
Defined.

Section WriteDiscipline.
Context {E : Engine}.

Lemma Write_loop_lwipMutex (later : list pass) :
  forall (data : bytes) (totalWritten : Z) (now : pass),
    lwipMutex_after false (snd (Write_loop data totalWritten now later))
      = Some false.
Proof.
  induction later as [|next later IH]; intros data totalWritten now;
    rewrite Write_loop_unfold;
    match goal with
    | |- context [Write_pass ?w data totalWritten now] =>
        destruct (Write_pass_spec w data totalWritten now)
          as [_ Hr | _ Hlc Hr | _ _ Hab Hr | tried _ _ _ Htried Hr
              | _ _ _ _ _ Hr
              | chunk rest _ _ _ _ _ _ _ Hr
              | chunk _ _ _ _ _ _ Hr]
    end; rewrite Hr; try reflexivity;
    try (destruct Htried as [[_ ->] | (c & _ & _ & _ & ->)]);
    cbn [fst snd after app lwipMutex_after]; auto.
Qed.

(** [Write] calls into lwIP only between a [lwipMutex.Lock()] and the
    [lwipMutex.Unlock()] that follows it, never locks the mutex twice, and
    does not hold it when it returns or when it waits. *)
Theorem Write_holds_lwipMutex (data : bytes) (now : pass)
    (later : list pass) :
  lwipMutex_after false (snd (Write data now later)) = Some false.
Proof.
  unfold Write. rewrite snd_after. cbn [app lwipMutex_after].
  apply Write_loop_lwipMutex.
Qed.

Lemma Write_pass_with_closing
    (wait wait' : bytes -> Z -> run (Z * option string))
    (data : bytes) (totalWritten : Z) (now : pass) :
  (forall d t, wait d t = wait' d t) ->
  Write_pass wait data totalWritten (with_closing now)
    = Write_pass wait' data totalWritten now.
Proof.
  intros Hwait.
  unfold Write_pass, with_closing, tcpWrite, isLocalClosed, isAborting,
    msg_closed_by_local, msg_aborting, LocalAddr, RemoteAddr.
  cbn [seen tcp_write_ret set_closing localClosed aborting pcb connKey
       localAddr remoteAddr].
  destruct (len data >? 0); [|reflexivity].
  destruct (localClosed (seen now)); [reflexivity|].
  destruct (aborting (seen now)); [reflexivity|].
  f_equal.
  set (toWrite := if len data >? snd_buf (pcb (seen now))
                  then snd_buf (pcb (seen now)) else len data).
  destruct (toWrite >? 0).
  - destruct (firstn (Z.to_nat toWrite) data) as [|b chunk];
      [reflexivity|].
    destruct (tcp_write_ret now =? ERR_OK);
      [|destruct (tcp_write_ret now =? ERR_MEM)];
      try reflexivity;
      do 2 f_equal;
      match goal with
      | |- context [len ?d =? 0] => destruct (len d =? 0)
      end; rewrite ?Hwait; reflexivity.
  - f_equal. destruct (len data =? 0); rewrite ?Hwait; reflexivity.
Qed.

(** [Write] does not look at the [closing] flag: a call during which
    [Close()] has been called on the connection runs exactly as one during
    which it has not. *)
Theorem Write_ignores_closing (data : bytes) (now : pass)
    (later : list pass) :
  Write data (with_closing now) (map with_closing later)
    = Write data now later.
Proof.
  unfold Write. cbn [with_closing seen set_closing connKey]. f_equal.
  generalize 0 as totalWritten. revert data now.
  induction later as [|next later IH]; intros data now totalWritten;
    cbn [map]; rewrite !Write_loop_unfold;
    apply Write_pass_with_closing; intros d t; [reflexivity | apply IH].
Qed.

(** A [Write] of at least one byte on a connection that is aborting and not
    closed by the local side returns at once with zero bytes and the
    aborting error, hands nothing to the engine, and leaves [canWrite.L]
    locked. *)
Theorem Write_after_Abort (data : bytes) (now : pass) (later : list pass) :
  data <> []%list ->
  localClosed (seen now) = false ->
  aborting (seen now) = true ->
  Write data now later =
    (Returned (0, Some (msg_aborting (seen now))),
     [canWrite_L_Lock (connKey (seen now))]%list).
Proof.
  intros Hdata Hlc Hab. apply len_pos_iff in Hdata.
  unfold Write. rewrite Write_loop_unfold. unfold Write_pass.
  destruct (Z.gtb_spec (len data) 0); [|lia].
  unfold isLocalClosed, isAborting. rewrite Hlc, Hab. reflexivity.
Qed.

Lemma Write_loop_engine_error (later : list pass) :
  forall (data : bytes) (totalWritten : Z) (now : pass) (n code : Z),
    Forall (fun p => snd_buf (pcb (seen p)) < 65536) (now :: later) ->
    fst (Write_loop data totalWritten now later)
      = Returned (n, Some (msg_tcp_write code)) ->
    n = totalWritten
        + accepted_bytes (snd (Write_loop data totalWritten now later)).
Proof.
  induction later as [|next later IH];
    intros data totalWritten now n code Hcaps;
    apply Forall_cons in Hcaps as [Hcap Hlater];
    rewrite Write_loop_unfold;
    match goal with
    | |- context [Write_pass ?w data totalWritten now] =>
        destruct (Write_pass_spec w data totalWritten now)
          as [_ Hr | _ Hlc Hr | _ _ Hab Hr | tried _ _ _ Htried Hr
              | _ _ _ _ _ Hr
              | chunk rest _ _ _ _ _ Hlen _ Hr
              | chunk _ _ _ _ _ _ Hr]
    end; rewrite Hr; cbn [fst snd after]; try discriminate;
    try (intros [= _ H]; exfalso;
         first [ exact (msg_closed_by_local_not_tcp_write _ _ H)
               | exact (msg_aborting_not_tcp_write _ _ H) ]);
    try (intros [= <- _]; unfold accepted_bytes, len; cbn; lia).
  - intros H. destruct Htried as [[_ ->] | (c & _ & _ & _ & ->)];
      unfold accepted_bytes; cbn [app accepted_chunks];
      exact (IH data totalWritten next n code Hlater H).
  - intros H. unfold accepted_bytes. cbn [app accepted_chunks concat].
    rewrite firstn_u16_len by lia. rewrite len_app.
    pose proof (IH rest (totalWritten + len chunk) next n code Hlater H)
      as Hn.
    unfold accepted_bytes in Hn. lia.
Qed.

(** When [tcp_write] fails with a code of its own, [Write] returns the
    number of bytes the engine took before; the send buffers are taken to
    fit a [u16_t]. *)
Theorem Write_count_on_engine_error (data : bytes) (now : pass)
    (later : list pass) (n code : Z) :
  Forall (fun p => snd_buf (pcb (seen p)) < 65536) (now :: later) ->
  fst (Write data now later) = Returned (n, Some (msg_tcp_write code)) ->
  n = accepted_bytes (snd (Write data now later)).
Proof.
  intros Hcaps Hn. unfold Write in *. rewrite fst_after in Hn.
  rewrite snd_after. unfold accepted_bytes. cbn [app accepted_chunks].
  apply (Write_loop_engine_error later data 0 now n code Hcaps Hn).
Qed.

End WriteDiscipline.

Lemma Write_after_Abort_witness :
  Write (E:=lwip2) (zeros 3) (sample_pass 1500 false true 0) []%list =
    (Returned (0, Some "connection 10.0.0.2:50000->10.0.0.1:443 is aborting"),
     [canWrite_L_Lock 42]%list).
Proof.
  apply (Write_after_Abort (E:=lwip2) (zeros 3)
           (sample_pass 1500 false true 0) []%list).
  - simpl. discriminate.
  - reflexivity.
  - reflexivity.
Defined.

Lemma Write_count_on_engine_error_witness :
  4 = accepted_bytes
        (snd (Write (E:=lwip2) (zeros 10) (sample_pass 4 false false 0)
                [sample_pass 100 false false (-6)]%list)).
Proof.
  apply (Write_count_on_engine_error (E:=lwip2) (zeros 10)
           (sample_pass 4 false false 0)
           [sample_pass 100 false false (-6)]%list 4 (-6)).
  - repeat (apply Forall_cons; split; [simpl; lia|]). apply Forall_nil.
    exact I.
  - reflexivity.
Defined.

Lemma Write_success_witness :
  3 = len (zeros 3) /\
  concat
    (accepted_chunks
       (snd (Write (E:=lwip2) (zeros 3) (sample_pass 2 false false 0)
               [sample_pass 2 false false 0]%list))) = zeros 3 /\
  accepted_bytes
    (snd (Write (E:=lwip2) (zeros 3) (sample_pass 2 false false 0)
            [sample_pass 2 false false 0]%list)) = 3.
Proof.
  apply (Write_success (E:=lwip2) (zeros 3) (sample_pass 2 false false 0)
           [sample_pass 2 false false 0]%list 3).
  - repeat (apply Forall_cons; split; [simpl; lia|]). apply Forall_nil.
    exact I.
  - reflexivity.
Defined.

(** ** More on the callbacks *)

Section CallbackMore.
Context {E : Engine}.

Lemma closeInternal_answer (conn : tcpConn) (close_ret : Z) (w : world) :
  fst (closeInternal conn close_ret w) =
    if close_ret =? ERR_OK then None else Some (msg_tcp_close close_ret).
Proof.
  unfold closeInternal. rewrite !bind_run.
  destruct (close_ret =? ERR_OK); reflexivity.
Qed.

Lemma code_of_msg_tcp_close (code : Z) :
  code_of_tcp_close_msg (msg_tcp_close code) = Some code.
Proof.
  unfold code_of_tcp_close_msg, msg_tcp_close.
  change "close TCP connection failed, lwip error code " with tcp_close_prefix.
  rewrite strip_prefix_app. apply parse_fmt_int.
Qed.

(** [closeInternal] reports a failure of [tcp_close] with its code, which
    can be read back from the text; by then, and whatever the engine
    answers, the callbacks are detached, the registry has no entry under the
    key, the context is cancelled and [tcp_close] has been called once. *)
Theorem closeInternal_result (conn : tcpConn) (close_ret : Z) (w : world) :
  (close_ret = ERR_OK -> fst (closeInternal conn close_ret w) = None) /\
  (close_ret <> ERR_OK ->
     fst (closeInternal conn close_ret w) = Some (msg_tcp_close close_ret) /\
     code_of_tcp_close_msg (msg_tcp_close close_ret) = Some close_ret) /\
  tcpConns (snd (closeInternal conn close_ret w)) !! connKey conn = None /\
  log (snd (closeInternal conn close_ret w)) =
    (log w ++ close_events conn)%list.
Proof.
  rewrite closeInternal_answer, closeInternal_world.
  cbn [add_log tcpConns log]. rewrite Release_log.
  repeat split.
  - intros ->. now rewrite Z.eqb_refl.
  - destruct (Z.eqb_spec close_ret ERR_OK); [congruence | reflexivity].
  - apply code_of_msg_tcp_close.
  - apply Release_removes.
Qed.

(** [CheckState] drops what [closeInternal] returns: its answer and the
    world it leaves are the same whatever code [tcp_close] gives back. *)
Theorem CheckState_drops_close_error (conn : tcpConn) (close_ret close_ret' : Z)
    (w : world) :
  CheckState conn close_ret w = CheckState conn close_ret' w.
Proof.
  destruct (localClosed conn) eqn:Hlc.
  - now rewrite !CheckState_localClosed by exact Hlc.
  - now rewrite !CheckState_not_localClosed by exact Hlc.
Qed.

(** [CheckState] answers "aborted" exactly when it has called [tcp_abort] in
    that call, and it calls it at most once. *)
Theorem CheckState_answer (conn : tcpConn) (close_ret : Z) (w : world) :
  (fst (CheckState conn close_ret w) = LWIP_ERR_ABRT /\
   tcp_abort_calls (log (snd (CheckState conn close_ret w)))
     = (tcp_abort_calls (log w) ++ [pcb conn])%list) \/
  (fst (CheckState conn close_ret w) = LWIP_ERR_OK /\
   tcp_abort_calls (log (snd (CheckState conn close_ret w)))
     = tcp_abort_calls (log w)).
Proof.
  destruct (localClosed conn) eqn:Hlc.
  - rewrite CheckState_localClosed by exact Hlc.
    destruct (aborting conn); [left | right];
      cbn [fst snd add_log log];
      rewrite Release_log, !tcp_abort_calls_app; cbn;
      rewrite ?app_nil_r; auto.
  - right. rewrite CheckState_not_localClosed by exact Hlc.
    cbn [fst snd add_log log]. rewrite tcp_abort_calls_app. cbn.
    rewrite app_nil_r. auto.
Qed.


(** [LocalDidClose] always ends in the graceful release: the connection it
    hands back has [localClosed] set, the registry has no entry under its
    key, the slot of a registered connection is freed, [tcp_close] is called
    once, and the answer is "aborted" exactly if [aborting] was set. *)
Theorem LocalDidClose_releases (conn : tcpConn) (close_ret : Z) (w : world) :
  let r := LocalDidClose conn close_ret w in
  localClosed (fst (fst r)) = true /\
  tcpConns (snd r) !! connKey conn = None /\
  (is_Some (tcpConns w !! connKey conn) ->
     connKeyArgs (snd r) !! connKeyArg conn = None) /\
  tcp_close_calls (log (snd r))
    = (tcp_close_calls (log w) ++ [pcb conn])%list /\
  snd (fst r) = (if aborting conn then LWIP_ERR_ABRT else LWIP_ERR_OK).
Proof.
  intros r. subst r. rewrite LocalDidClose_world. cbn zeta.
  rewrite CheckState_localClosed by reflexivity.
  cbn [set_localClosed aborting pcb connKey connKeyArg].
  rewrite Release_add_log.
  assert (Hslot : is_Some (tcpConns w !! connKey conn) ->
            connKeyArgs (snd (Release (set_localClosed conn) w))
              !! connKeyArg conn = None).
  { intros Hreg. rewrite Release_found by exact Hreg.
    cbn. apply lookup_delete_eq. }
  pose proof (Release_removes (set_localClosed conn) w) as Hgone.
  pose proof (Release_log (set_localClosed conn) w) as Hlog.
  destruct (aborting conn);
    cbn [fst snd add_log tcpConns connKeyArgs log localClosed
         set_localClosed] in *;
    rewrite Hlog, !tcp_close_calls_app; cbn; rewrite ?app_nil_r;
    repeat split; auto.
Qed.

End CallbackMore.

Lemma closeInternal_result_witness :
  fst (closeInternal (E:=lwip2) (sample_conn 0 false true false) (-1)
         sample_world)
    = Some "close TCP connection failed, lwip error code -1" /\
  fst (closeInternal (E:=lwip2) (sample_conn 0 false true false) 0
         sample_world) = None.
Proof.
  destruct (closeInternal_result (E:=lwip2) (sample_conn 0 false true false)
              (-1) sample_world) as (_ & Hfail & _).
  destruct (closeInternal_result (E:=lwip2) (sample_conn 0 false true false)
              0 sample_world) as (Hok & _).
  split.
  - apply Hfail. simpl. lia.
  - apply Hok. reflexivity.
Defined.


Lemma LocalDidClose_releases_witness :
  connKeyArgs
    (snd (LocalDidClose (E:=lwip2) (sample_conn 0 false false false) 0
            sample_world)) !! 7%N = None.
Proof.
  apply (LocalDidClose_releases (E:=lwip2) (sample_conn 0 false false false)
           0 sample_world).
  vm_compute. eauto.
Defined.

(** ** A connection over time *)

Section LifetimeProperties.
Context {E : Engine}.


(** An operation hands back the connection with at most one more flag. *)
Lemma step_conn (conn : tcpConn) (o : op) (w : world) :
  fst (step conn o w) = conn \/
  fst (step conn o w) = set_closing conn \/
  fst (step conn o w) = set_localClosed conn \/
  fst (step conn o w) = set_aborting conn.
Proof.
  destruct o; cbn [step]; rewrite ?bind_run; cbn [mret M_ret fst]; auto.
  rewrite LocalDidClose_world. cbn zeta.
  destruct (CheckState _ _ _). cbn. auto.
Qed.







(** No operation takes a flag back: a flag that is set stays set. *)
Theorem flags_stay_set (os : list op) :
  forall (conn : tcpConn) (w : world),
    (closing conn = true -> closing (fst (steps conn os w)) = true) /\
    (localClosed conn = true ->
       localClosed (fst (steps conn os w)) = true) /\
    (aborting conn = true -> aborting (fst (steps conn os w)) = true).
Proof.
  induction os as [|o os IH]; intros conn w; [auto|].
  cbn [steps]. rewrite bind_run.
  destruct (IH (fst (step conn o w)) (snd (step conn o w)))
    as (Hc & Hl & Ha).
  destruct (step_conn conn o w) as [Heq | [Heq | [Heq | Heq]]];
    rewrite Heq in *; cbn in *; auto.
Qed.

End LifetimeProperties.



Lemma flags_stay_set_witness :
  aborting
    (fst (steps (E:=lwip2) (sample_conn 0 false false true)
            [OpClose; OpLocalDidClose 0; OpPoll 0]%list sample_world))
    = true.
Proof.
  apply (flags_stay_set (E:=lwip2) [OpClose; OpLocalDidClose 0; OpPoll 0]%list
           (sample_conn 0 false false true) sample_world).
  reflexivity.
Defined.

(** ** Creation, release and the engine error *)

Section CreationMore.
Context {E : Engine}.


(** Without a registered acceptor [NewTCPConnection] fails before it builds
    the connection: nothing is stored in the registry and nothing is called,
    but the slot it allocated at the start stays allocated, with the key in
    it. *)
Theorem NewTCPConnection_no_handler (pcb0 : tcp_pcb)
    (handler0 : ConnectionHandler) (arg : N) (key : Z) (w : world) :
  tcpConnectionHandler w = false ->
  let r := NewTCPConnection pcb0 handler0 arg key w in
  fst r = (None, Some msg_no_handler) /\
  tcpConns (snd r) = tcpConns w /\
  log (snd r) = log w /\
  connKeyArgs (snd r) !! arg = Some key.
Proof.
  intros Hreg r. subst r. unfold NewTCPConnection. rewrite !bind_run.
  cbn [NewConnKeyArg SetConnKeyVal fst snd tcpConnectionHandler].
  rewrite Hreg. cbn [negb mret M_ret fst snd tcpConns log connKeyArgs].
  repeat split. rewrite insert_insert_eq. apply lookup_insert_eq.
Qed.

(** What a successful [NewTCPConnection] leaves behind. *)
Lemma NewTCPConnection_accepted (pcb0 : tcp_pcb)
    (handler0 : ConnectionHandler) (arg : N) (key : Z) (w : world) :
  tcpConnectionHandler w = true ->
  Connect handler0
    (log w ++ install_events pcb0 arg (TCP_POLL_INTERVAL mod 256))
    (ParseTCPAddr (IPAddrNTOA (local_ip pcb0)) (u16_t (local_port pcb0)))
    = None ->
  exists conn,
    fst (NewTCPConnection pcb0 handler0 arg key w) = (Some conn, None) /\
    pcb conn = pcb0 /\ handler conn = handler0 /\
    connKey conn = key /\ connKeyArg conn = arg /\
    closing conn = false /\ localClosed conn = false /\
    aborting conn = false /\
    tcpConns (snd (NewTCPConnection pcb0 handler0 arg key w))
      = <[key := conn]> (tcpConns w) /\
    connKeyArgs (snd (NewTCPConnection pcb0 handler0 arg key w))
      = <[arg := key]> (connKeyArgs w).
Proof.
  intros Hreg Hconnect.
  unfold NewTCPConnection. rewrite !bind_run.
  cbn [NewConnKeyArg SetConnKeyVal fst snd tcpConnectionHandler].
  rewrite Hreg. cbn [negb].
  rewrite !bind_run. unfold handler_Connect, RemoteAddr.
  cbn [tcpConns_Store emit add_log fst snd log remoteAddr connKey handler
       tcpConns connKeyArgs tcpConnectionHandler].
  rewrite <- !app_assoc. cbn [app].
  unfold install_events in Hconnect. rewrite Hconnect.
  rewrite !add_log_add_log.
  cbn [mret M_ret fst snd tcpConns connKeyArgs log add_log app].
  eexists. split; [reflexivity|].
  cbn. rewrite insert_insert_eq. repeat split.
Qed.

(** A connection that is created and accepted by the handler is a fresh
    one: no flag is set, and the registry finds it under its key. *)
Theorem NewTCPConnection_registers (pcb0 : tcp_pcb)
    (handler0 : ConnectionHandler) (arg : N) (key : Z) (w : world) :
  tcpConnectionHandler w = true ->
  Connect handler0
    (log w ++ install_events pcb0 arg (TCP_POLL_INTERVAL mod 256))
    (ParseTCPAddr (IPAddrNTOA (local_ip pcb0)) (u16_t (local_port pcb0)))
    = None ->
  exists conn,
    fst (NewTCPConnection pcb0 handler0 arg key w) = (Some conn, None) /\
    closing conn = false /\ localClosed conn = false /\
    aborting conn = false /\
    tcpConns_Load key (snd (NewTCPConnection pcb0 handler0 arg key w))
      = (Some conn, snd (NewTCPConnection pcb0 handler0 arg key w)) /\
    connKeyArgs (snd (NewTCPConnection pcb0 handler0 arg key w)) !! arg
      = Some key.
Proof.
  intros Hreg Hconnect.
  destruct (NewTCPConnection_accepted pcb0 handler0 arg key w Hreg Hconnect)
    as (conn & Hr & _ & _ & _ & _ & Hc & Hl & Ha & Hreg' & Hslots).
  exists conn. repeat split; try assumption.
  - unfold tcpConns_Load. rewrite Hreg'. now rewrite lookup_insert_eq.
  - rewrite Hslots. apply lookup_insert_eq.
Qed.

(** Creating a connection under a fresh key with a fresh slot and releasing
    it again, by any of the release paths, gives back the registry and the
    slots as they were. *)
Theorem NewTCPConnection_then_release (pcb0 : tcp_pcb)
    (handler0 : ConnectionHandler) (arg : N) (key : Z) (close_ret : Z)
    (w : world) :
  tcpConnectionHandler w = true ->
  Connect handler0
    (log w ++ install_events pcb0 arg (TCP_POLL_INTERVAL mod 256))
    (ParseTCPAddr (IPAddrNTOA (local_ip pcb0)) (u16_t (local_port pcb0)))
    = None ->
  tcpConns w !! key = None ->
  connKeyArgs w !! arg = None ->
  exists conn,
    fst (NewTCPConnection pcb0 handler0 arg key w) = (Some conn, None) /\
    let w1 := snd (NewTCPConnection pcb0 handler0 arg key w) in
    (tcpConns (snd (Err conn w1)) = tcpConns w /\
     connKeyArgs (snd (Err conn w1)) = connKeyArgs w) /\
    (tcpConns (snd (LocalDidClose conn close_ret w1)) = tcpConns w /\
     connKeyArgs (snd (LocalDidClose conn close_ret w1)) = connKeyArgs w) /\
    (tcpConns (snd (abortInternal conn w1)) = tcpConns w /\
     connKeyArgs (snd (abortInternal conn w1)) = connKeyArgs w).
Proof.
  intros Hreg Hconnect Hkey Hslot.
  destruct (NewTCPConnection_accepted pcb0 handler0 arg key w Hreg Hconnect)
    as (conn & Hr & _ & _ & Hk & Harg & _ & _ & _ & Hreg' & Hslots).
  exists conn. split; [exact Hr|]. cbn zeta.
  set (w1 := snd (NewTCPConnection pcb0 handler0 arg key w)) in *.
  assert (Hrel : tcpConns (snd (Release conn w1)) = tcpConns w /\
                 connKeyArgs (snd (Release conn w1)) = connKeyArgs w).
  { rewrite Release_found
      by (rewrite Hk, Hreg', lookup_insert_eq; eauto).
    cbn. rewrite Hk, Harg, Hreg', Hslots.
    rewrite !delete_insert_id by assumption. auto. }
  split; [|split].
  - rewrite Err_world. exact Hrel.
  - rewrite LocalDidClose_world. cbn zeta.
    rewrite CheckState_localClosed by reflexivity.
    assert (Hrel' : Release (set_localClosed conn) = Release conn)
      by reflexivity.
    rewrite Hrel', Release_add_log.
    destruct (aborting (set_localClosed conn)); exact Hrel.
  - rewrite abortInternal_world. exact Hrel.
Qed.

(** [Release] goes by the key alone.  Of two connections that drew the same
    key, the first to be released takes away the entry the second one
    stored, and the second one then releases nothing, so that its slot is
    never freed. *)
Theorem Release_same_key (c1 c2 : tcpConn) (w : world) :
  connKey c1 = connKey c2 ->
  connKeyArg c1 <> connKeyArg c2 ->
  tcpConns w !! connKey c2 = Some c2 ->
  let w1 := snd (Release c1 w) in
  let w2 := snd (Release c2 w1) in
  tcpConns w1 !! connKey c2 = None /\
  connKeyArgs w1 !! connKeyArg c1 = None /\
  w2 = w1 /\
  connKeyArgs w2 !! connKeyArg c2 = connKeyArgs w !! connKeyArg c2.
Proof.
  intros Hk Harg Hreg w1 w2.
  assert (Hw1 : w1 = released c1 w).
  { subst w1. rewrite Release_found by (rewrite Hk; eauto). reflexivity. }
  assert (Hgone : tcpConns w1 !! connKey c2 = None).
  { rewrite Hw1. cbn. rewrite Hk. apply lookup_delete_eq. }
  assert (Hw2 : w2 = w1).
  { subst w2. now rewrite Release_absent by exact Hgone. }
  repeat split; try assumption.
  - rewrite Hw1. cbn. apply lookup_delete_eq.
  - rewrite Hw2, Hw1. cbn. now apply lookup_delete_ne.
Qed.

End CreationMore.


Lemma NewTCPConnection_no_handler_witness :
  connKeyArgs
    (snd (NewTCPConnection (E:=lwip2) (sample_pcb 0) accepting 7 42
            {| tcpConnectionHandler := false; tcpConns := ∅;
               connKeyArgs := ∅; log := []%list |})) !! 7%N = Some 42.
Proof.
  apply (NewTCPConnection_no_handler (E:=lwip2) (sample_pcb 0) accepting 7 42
           {| tcpConnectionHandler := false; tcpConns := ∅;
              connKeyArgs := ∅; log := []%list |}).
  reflexivity.
Defined.

Lemma NewTCPConnection_registers_witness :
  exists conn,
    fst (NewTCPConnection (E:=lwip2) (sample_pcb 0) accepting 7 42
           fresh_world) = (Some conn, None) /\
    aborting conn = false.
Proof.
  destruct (NewTCPConnection_registers (E:=lwip2) (sample_pcb 0) accepting
              7 42 fresh_world) as (conn & Hr & _ & _ & Ha & _).
  - reflexivity.
  - reflexivity.
  - exists conn. split; assumption.
Defined.

Lemma NewTCPConnection_then_release_witness :
  exists conn,
    fst (NewTCPConnection (E:=lwip2) (sample_pcb 0) accepting 7 42
           fresh_world) = (Some conn, None) /\
    tcpConns
      (snd (Err conn
              (snd (NewTCPConnection (E:=lwip2) (sample_pcb 0) accepting 7 42
                      fresh_world)))) = ∅.
Proof.
  destruct (NewTCPConnection_then_release (E:=lwip2) (sample_pcb 0) accepting
              7 42 0 fresh_world) as (conn & Hr & (H1 & _) & _).
  - reflexivity.
  - reflexivity.
  - reflexivity.
  - reflexivity.
  - exists conn. split; [exact Hr | exact H1].
Defined.

Lemma Release_same_key_witness :
  connKeyArgs
    (snd (Release (sample_conn 0 false false false)
            (snd (Release
                    {| pcb := sample_pcb 0; handler := accepting;
                       network := "tcp"; remoteAddr := "10.0.0.1:443";
                       localAddr := "10.0.0.3:50001";
                       connKeyArg := 8; connKey := 42;
                       closing := false; localClosed := false;
                       aborting := false |} sample_world)))) !! 7%N
    = Some 42.
Proof.
  apply (Release_same_key
           {| pcb := sample_pcb 0; handler := accepting;
              network := "tcp"; remoteAddr := "10.0.0.1:443";
              localAddr := "10.0.0.3:50001";
              connKeyArg := 8; connKey := 42;
              closing := false; localClosed := false;
              aborting := false |}
           (sample_conn 0 false false false) sample_world).
  - reflexivity.
  - simpl. lia.
  - reflexivity.
Defined.

(** ** The mutex, the handler and the order of things *)

Section Discipline.
Context {E : Engine}.

Lemma CheckState_events (conn : tcpConn) (close_ret : Z) (w : world) :
  log (snd (CheckState conn close_ret w)) =
    (log w ++
     if localClosed conn then
       close_events conn ++
       (if aborting conn then [Lwip (tcp_abort (pcb conn))] else [])
     else [canWrite_Broadcast (connKey conn)])%list.
Proof.
  destruct (localClosed conn) eqn:Hlc.
  - rewrite CheckState_localClosed by exact Hlc.
    destruct (aborting conn); cbn [snd add_log log];
      rewrite Release_log, ?app_nil_r; reflexivity.
  - now rewrite CheckState_not_localClosed by exact Hlc.
Qed.

(** A callback that is entered with [lwipMutex] held calls lwIP only while
    it holds the mutex and returns holding it.  Only [Receive] gives the
    mutex up, for the time of [DidReceive]; [DidSend], [LocalDidClose] and
    [DidClose] are called with the mutex held. *)
Theorem step_lock_discipline (conn : tcpConn) (o : op) (w : world) :
  exists evs,
    log (snd (step conn o w)) = (log w ++ evs)%list /\
    lwipMutex_after true evs = Some true /\
    handler_calls_with_lock true evs =
      match o with
      | OpReceive data =>
          if closing conn || aborting conn then []%list
          else [(HDidReceive data, false)]%list
      | OpSent n _ => [(HDidSend n, true)]%list
      | OpPoll _ => []%list
      | OpLocalDidClose _ => [(HLocalDidClose, true)]%list
      | OpErr => [(HDidClose, true)]%list
      | OpClose => []%list
      | OpAbort => []%list
      end.
Proof.
  destruct o as [data|n r|r|r| | |]; cbn [step]; rewrite ?bind_run;
    cbn [mret M_ret snd].
  - destruct (closing conn) eqn:Hc;
      [|destruct (aborting conn) eqn:Ha].
    + rewrite Receive_rejected by auto. exists []%list.
      cbn. now rewrite app_nil_r.
    + rewrite Receive_rejected by auto. exists []%list.
      cbn. now rewrite app_nil_r.
    + rewrite (Receive_forwarded conn data w Hc Ha).
      destruct (DidReceive _ _ _); eexists;
        (split; [reflexivity|]); split; reflexivity.
  - unfold Sent. rewrite bind_run. unfold emit. cbn [fst snd].
    rewrite CheckState_events. cbn [add_log log].
    rewrite <- app_assoc.
    eexists; split; [reflexivity|].
    destruct (localClosed conn), (aborting conn); split; reflexivity.
  - unfold Poll. rewrite CheckState_events.
    eexists; split; [reflexivity|].
    destruct (localClosed conn), (aborting conn); split; reflexivity.
  - rewrite LocalDidClose_world. cbn zeta.
    pose proof (CheckState_events (set_localClosed conn) r
                  (add_log w [Handler (connKey conn) HLocalDidClose;
                              canWrite_Broadcast (connKey conn)]%list))
      as Hev.
    destruct (CheckState _ _ _) as [sig w1]. cbn [snd] in *.
    rewrite Hev. cbn [add_log log set_localClosed localClosed aborting].
    rewrite <- app_assoc.
    eexists; split; [reflexivity|].
    destruct (aborting conn); split; reflexivity.
  - rewrite Err_world. cbn [snd add_log log]. rewrite Release_log.
    eexists; split; [reflexivity|]. split; reflexivity.
  - exists []%list. cbn. now rewrite app_nil_r.
  - unfold Abort. rewrite bind_run.
    eexists; split; [reflexivity|]. split; reflexivity.
Qed.

(** [NewTCPConnection], entered with [lwipMutex] held and an acceptor
    registered, installs the callbacks while it holds the mutex, gives the
    mutex up for the time of [Connect], and holds it again when it returns,
    whether [Connect] failed or not. *)
Theorem NewTCPConnection_lock_discipline (pcb0 : tcp_pcb)
    (handler0 : ConnectionHandler) (arg : N) (key : Z) (w : world) :
  tcpConnectionHandler w = true ->
  exists evs,
    log (snd (NewTCPConnection pcb0 handler0 arg key w))
      = (log w ++ evs)%list /\
    lwipMutex_after true evs = Some true /\
    handler_calls_with_lock true evs =
      [(HConnect (ParseTCPAddr (IPAddrNTOA (local_ip pcb0))
                    (u16_t (local_port pcb0))), false)]%list.
Proof.
  intros Hreg.
  unfold NewTCPConnection. rewrite !bind_run.
  cbn [NewConnKeyArg SetConnKeyVal fst snd tcpConnectionHandler].
  rewrite Hreg. cbn [negb].
  rewrite !bind_run. unfold handler_Connect, RemoteAddr.
  cbn [tcpConns_Store emit add_log fst snd log remoteAddr connKey handler
       tcpConns connKeyArgs tcpConnectionHandler].
  rewrite !add_log_add_log.
  destruct (Connect handler0 _ _);
    cbn [mret M_ret fst snd log add_log app];
    (eexists; split; [reflexivity|]); split; reflexivity.
Qed.


(** After [Close()] every buffer from the engine is turned away with the
    closed-by-remote error, also when the connection is aborting as well;
    after [Abort()] alone it is turned away with the aborting error. *)
Theorem Receive_after_Close_or_Abort (conn : tcpConn) (data : bytes)
    (w0 w : world) :
  Receive (fst (Close conn w0)) data w
    = (Some (msg_closed_by_remote conn), w) /\
  (closing conn = false ->
   Receive (fst (Abort conn w0)) data w = (Some (msg_aborting conn), w)).
Proof.
  change (fst (Close conn w0)) with (set_closing conn).
  change (fst (Abort conn w0)) with (set_aborting conn).
  split.
  - rewrite Receive_rejected by (left; reflexivity). reflexivity.
  - intros Hc. rewrite Receive_rejected by (right; reflexivity).
    cbn [set_aborting closing]. now rewrite Hc.
Qed.




End Discipline.

Lemma NewTCPConnection_lock_discipline_witness :
  exists evs,
    log (snd (NewTCPConnection (E:=lwip2) (sample_pcb 0) refusing 7 42
                fresh_world)) = (log fresh_world ++ evs)%list /\
    lwipMutex_after true evs = Some true.
Proof.
  destruct (NewTCPConnection_lock_discipline (E:=lwip2) (sample_pcb 0)
              refusing 7 42 fresh_world) as (evs & Hlog & Hlock & _).
  - reflexivity.
  - exists evs. split; assumption.
Defined.


Lemma Receive_after_Close_or_Abort_witness :
  Receive (fst (Abort (sample_conn 0 false false false) sample_world))
    (zeros 3) sample_world
    = (Some "connection 10.0.0.2:50000->10.0.0.1:443 is aborting",
       sample_world).
Proof.
  apply (Receive_after_Close_or_Abort (sample_conn 0 false false false)
           (zeros 3) sample_world sample_world).
  reflexivity.
Defined.
